(** * Blockly block events: creation and change

    A shallow embedding of [Blockly.Events.BlockCreate] and
    [Blockly.Events.BlockChange] (constructor, [toJson], [fromJson],
    [isNull], [run]) together with the part of the JavaScript value
    semantics those functions rely on: truthiness, [typeof], strict and
    loose equality, and the string-to-number conversion behind [==]. *)

From Stdlib Require Import ZArith String Ascii List Bool Lia.
From Stdlib Require Import Floats.
Import ListNotations.

Local Open Scope string_scope.

(** ** JavaScript values *)

Module Js.

(** Primitive values.  Numbers are IEEE 754 binary64 values; strings are
    sequences of 8-bit code units (the code units 0..255 of a JavaScript
    string). *)
Inductive Primitive : Type :=
| Undefined
| Null
| Boolean (b : bool)
| Number (x : float)
| Str (s : string).

(** A value is a primitive or a reference to an object.  An object is
    identified by its reference; [prim] is what the object converts to
    when an operator asks for a primitive (the outcome of its
    [valueOf]/[toString], which [==] consults when the other operand is a
    primitive). *)
Inductive Value : Type :=
| Prim (p : Primitive)
| Object (ref : nat) (prim : Primitive).

End Js.

Abbreviation JsValue := Js.Value.
Abbreviation JsUndefined := (Js.Prim Js.Undefined).
Abbreviation JsNull := (Js.Prim Js.Null).
Abbreviation JsBool b := (Js.Prim (Js.Boolean b)).
Abbreviation JsNumber x := (Js.Prim (Js.Number x)).
Abbreviation JsString s := (Js.Prim (Js.Str s)).

(** [typeof v]. *)
Definition js_typeof (v : JsValue) : string :=
  match v with
  | JsUndefined => "undefined"
  | JsNull => "object"
  | JsBool _ => "boolean"
  | JsNumber _ => "number"
  | JsString _ => "string"
  | Js.Object _ _ => "object"
  end.

(** [ToBoolean]: the falsy values are [undefined], [null], [false], [+0],
    [-0], [NaN] and the empty string. *)
Definition ToBoolean (v : JsValue) : bool :=
  match v with
  | JsUndefined | JsNull => false
  | JsBool b => b
  | JsNumber x => negb (PrimFloat.eqb x 0 || PrimFloat.is_nan x)
  | JsString s => negb (String.eqb s "")
  | Js.Object _ _ => true
  end.

(** [a || b] and [a && b] on values. *)
Definition js_or (a b : JsValue) : JsValue := if ToBoolean a then a else b.
Definition js_and (a b : JsValue) : JsValue := if ToBoolean a then b else a.

(** *** String to number ([StringToNumber] of the language) *)

Module StringNumericLiteral.

Local Open Scope Z_scope.

Definition code (c : ascii) : Z := Z.of_N (N_of_ascii c).

(** White space and line terminators among the code units 0..255:
    TAB, LF, VT, FF, CR, SP and NBSP. *)
Definition is_white_space (c : ascii) : bool :=
  let n := code c in
  (n =? 9) || (n =? 10) || (n =? 11) || (n =? 12) || (n =? 13)
  || (n =? 32) || (n =? 160).

Fixpoint trim_left (l : list ascii) : list ascii :=
  match l with
  | c :: rest => if is_white_space c then trim_left rest else l
  | [] => []
  end.

Definition trim (l : list ascii) : list ascii :=
  rev (trim_left (rev (trim_left l))).

Definition decimal_digit (c : ascii) : option Z :=
  let n := code c in
  if (48 <=? n) && (n <=? 57) then Some (n - 48) else None.

Definition hex_digit (c : ascii) : option Z :=
  let n := code c in
  if (48 <=? n) && (n <=? 57) then Some (n - 48)
  else if (97 <=? n) && (n <=? 102) then Some (n - 87)
  else if (65 <=? n) && (n <=? 70) then Some (n - 55)
  else None.

Definition octal_digit (c : ascii) : option Z :=
  let n := code c in
  if (48 <=? n) && (n <=? 55) then Some (n - 48) else None.

Definition binary_digit (c : ascii) : option Z :=
  let n := code c in
  if (48 <=? n) && (n <=? 49) then Some (n - 48) else None.

(** The longest prefix of digits of [l]: its value continued from [acc],
    the number of digits read, and the rest. *)
Fixpoint digits (digit : ascii -> option Z) (radix acc : Z) (count : nat)
    (l : list ascii) : Z * nat * list ascii :=
  match l with
  | c :: rest =>
      match digit c with
      | Some d => digits digit radix (radix * acc + d) (S count) rest
      | None => (acc, count, l)
      end
  | [] => (acc, count, [])
  end.

(** The number value of the real [m * 2 ^ e]: rounded to nearest, ties to
    even, overflowing to an infinity. *)
Definition round_binary (m e : Z) (negative : bool) : float :=
  SF2Prim (binary_normalize prec emax (if negative then - m else m) e negative).

(** The number value of the real [m * 10 ^ e] for [0 <= m].  For a negative
    exponent the quotient is taken with at least 70 significant bits and a
    sticky last bit, so that rounding it to 53 bits rounds the exact
    quotient. *)
Definition round_decimal (m e : Z) (negative : bool) : float :=
  if 0 <=? e then round_binary (m * 10 ^ e) 0 negative
  else
    let d := 10 ^ (- e) in
    let s := Z.log2 d + 70 in
    let q := (m * 2 ^ s) / d in
    let sticky := if (m * 2 ^ s) mod d =? 0 then 0 else 1 in
    round_binary (2 * q + sticky) (- s - 1) negative.

(** [ExponentPart opt] followed by the end of the literal. *)
Definition exponent_part (l : list ascii) : option Z :=
  match l with
  | [] => Some 0
  | c :: rest =>
      if (code c =? 101) || (code c =? 69) then
        let '(negative, rest) :=
          match rest with
          | s :: rest' =>
              if code s =? 43 then (false, rest')
              else if code s =? 45 then (true, rest')
              else (false, rest)
          | [] => (false, rest)
          end in
        match digits decimal_digit 10 0 0 rest with
        | (_, O, _) => None
        | (x, _, []) => Some (if negative then - x else x)
        | (_, _, _ :: _) => None
        end
      else None
  end.

(** [StrUnsignedDecimalLiteral], the sign already read. *)
Definition unsigned_decimal (l : list ascii) (negative : bool) : float :=
  if list_eq_dec ascii_dec l (list_ascii_of_string "Infinity") then
    (if negative then neg_infinity else infinity)
  else
    let '(int_value, int_count, rest) := digits decimal_digit 10 0 0 l in
    let '(mantissa, frac_count, rest) :=
      match rest with
      | c :: rest' =>
          if code c =? 46 then digits decimal_digit 10 int_value 0 rest'
          else (int_value, O, rest)
      | [] => (int_value, O, rest)
      end in
    match int_count, frac_count with
    | O, O => nan
    | _, _ =>
        match exponent_part rest with
        | Some e => round_decimal mantissa (e - Z.of_nat frac_count) negative
        | None => nan
        end
    end.

(** [0x], [0o] and [0b] literals (no sign allowed). *)
Definition non_decimal (l : list ascii) : option float :=
  match l with
  | z :: p :: rest =>
      if code z =? 48 then
        let radix_of :=
          if (code p =? 120) || (code p =? 88) then Some (hex_digit, 16)
          else if (code p =? 111) || (code p =? 79) then Some (octal_digit, 8)
          else if (code p =? 98) || (code p =? 66) then Some (binary_digit, 2)
          else None in
        match radix_of with
        | Some (digit, radix) =>
            match digits digit radix 0 0 rest with
            | (_, O, _) => Some nan
            | (n, _, []) => Some (round_binary n 0 false)
            | (_, _, _ :: _) => Some nan
            end
        | None => None
        end
      else None
  | _ => None
  end.

Definition StringToNumber (s : string) : float :=
  match trim (list_ascii_of_string s) with
  | [] => 0%float
  | (c :: rest) as l =>
      match non_decimal l with
      | Some x => x
      | None =>
          if code c =? 43 then unsigned_decimal rest false
          else if code c =? 45 then unsigned_decimal rest true
          else unsigned_decimal l false
      end
  end.

End StringNumericLiteral.

Abbreviation StringToNumber := StringNumericLiteral.StringToNumber.

(** *** Equality *)

(** [ToNumber] of a boolean. *)
Definition bool_to_number (b : bool) : float := if b then 1%float else 0%float.

(** [x === y]: same type and same value; [NaN] differs from itself, [+0]
    equals [-0], objects are compared by reference. *)
Definition strict_eq (x y : JsValue) : bool :=
  match x, y with
  | JsUndefined, JsUndefined => true
  | JsNull, JsNull => true
  | JsBool a, JsBool b => Bool.eqb a b
  | JsNumber a, JsNumber b => PrimFloat.eqb a b
  | JsString a, JsString b => String.eqb a b
  | Js.Object r _, Js.Object r' _ => Nat.eqb r r'
  | _, _ => false
  end.

(** [x == y] between primitives: operands of one type are compared
    strictly; [null] and [undefined] equal each other and nothing else; a
    boolean is first converted to a number; a string facing a number is
    converted to a number. *)
Definition prim_loose_eq (x y : Js.Primitive) : bool :=
  match x, y with
  | Js.Undefined, (Js.Undefined | Js.Null) => true
  | Js.Null, (Js.Undefined | Js.Null) => true
  | Js.Boolean a, Js.Boolean b => Bool.eqb a b
  | Js.Number a, Js.Number b => PrimFloat.eqb a b
  | Js.Str a, Js.Str b => String.eqb a b
  | Js.Number a, Js.Str b => PrimFloat.eqb a (StringToNumber b)
  | Js.Str a, Js.Number b => PrimFloat.eqb (StringToNumber a) b
  | Js.Boolean a, Js.Number b => PrimFloat.eqb (bool_to_number a) b
  | Js.Number a, Js.Boolean b => PrimFloat.eqb a (bool_to_number b)
  | Js.Boolean a, Js.Str b =>
      PrimFloat.eqb (bool_to_number a) (StringToNumber b)
  | Js.Str a, Js.Boolean b =>
      PrimFloat.eqb (StringToNumber a) (bool_to_number b)
  | _, _ => false
  end.

(** [x == y].  Two objects are equal when they are the same object; an
    object facing a boolean, a number or a string is converted to its
    primitive first; an object never equals [null] or [undefined]. *)
Definition loose_eq (x y : JsValue) : bool :=
  match x, y with
  | Js.Prim p, Js.Prim q => prim_loose_eq p q
  | Js.Object r _, Js.Object r' _ => Nat.eqb r r'
  | Js.Object _ p, Js.Prim q =>
      match q with
      | Js.Undefined | Js.Null => false
      | _ => prim_loose_eq p q
      end
  | Js.Prim p, Js.Object _ q =>
      match p with
      | Js.Undefined | Js.Null => false
      | _ => prim_loose_eq p q
      end
  end.

(** Whether a value is the number [NaN]. *)
Definition is_NaN (v : JsValue) : bool :=
  match v with
  | JsNumber x =>
      match Prim2SF x with
      | S754_nan => true
      | _ => false
      end
  | _ => false
  end.

Definition is_undefined (v : JsValue) : bool :=
  String.eqb (js_typeof v) "undefined".

(** Reading a property that may be absent from an object: an absent key
    reads as [undefined]. *)
Definition js_get (slot : option JsValue) : JsValue :=
  match slot with
  | Some v => v
  | None => JsUndefined
  end.

(** ** Events *)

(** The [type] tag of the two event classes ([Blockly.Events.BLOCK_CREATE],
    [Blockly.Events.BLOCK_CHANGE]). *)
Inductive EventType : Type := BLOCK_CREATE | BLOCK_CHANGE.

(** The fields every block event inherits from its base classes. *)
Record BlockBase : Type := mkBlockBase {
  workspaceId : JsValue;
  group : JsValue;
  recordUndo : JsValue;
  blockId : JsValue
}.

(** A creation event.  [ids] is [None] while the property is unset (a
    blank event), and the array otherwise. *)
Record BlockCreate : Type := mkBlockCreate {
  create_base : BlockBase;
  xml : JsValue;
  ids : option (list JsValue)
}.

(** A change event.  An unset property reads as [undefined]. *)
Record BlockChange : Type := mkBlockChange {
  change_base : BlockBase;
  element : JsValue;
  name : JsValue;
  oldValue : JsValue;
  newValue : JsValue
}.

(** The JSON records.  A key that the serializer always writes is a plain
    field (reading it from a record that lacks it gives [undefined], which
    the field then holds); a key that it writes under a condition is
    optional, [None] standing for a record without the key. *)
Record BaseJson : Type := mkBaseJson {
  json_type : EventType;
  json_group : option JsValue;
  json_blockId : option JsValue
}.


Record ChangeJson : Type := mkChangeJson {
  change_json_base : BaseJson;
  json_element : JsValue;
  json_name : option JsValue;
  json_oldValue : JsValue;
  json_newValue : JsValue
}.

Definition set_recordUndo (v : JsValue) (b : BlockBase) : BlockBase :=
  mkBlockBase (workspaceId b) (group b) v (blockId b).

(** A line of the diagnostic console: [console.warn(text + arg)]. *)
Record Warning : Type := mkWarning {
  warn_text : string;
  warn_arg : JsValue
}.

(** What went wrong when a run is cut short: a [TypeError] of the language
    (a property read from [undefined], a DOM call on a value that is no
    node), or the error that [Blockly.Xml.textToDom] throws on a text that
    it cannot parse. *)
Inductive JsError : Type := TypeError | ParseError.

(** ** The collaborators

    The workspace, its blocks and fields, and the XML helpers are not part
    of the excerpt; the events use them through their interface only, and
    so does the embedding.  A [Document] is the state of a workspace with
    everything that hangs off it; blocks and fields are handles into it.
    A query reads the document ([has_mutator] is the truthiness of
    [block.mutator], [has_mutationToDom] and [has_domToMutation] that of
    the two optional hooks, [mutationToDom] the result of calling the
    hook); a command returns the document it leaves behind.  DOM nodes
    are values of the language.

    An operation describes a call that returns.  [Blockly.Xml.textToDom]
    throws on a text that it cannot parse: [textToDom_throws] tells on
    which texts, and [textToDom] gives the element for the others.  What
    a collaborator fires or logs on its own account while it is called
    (a field that announces its new value, a block that announces its
    disposal) is the collaborator's business and is not described here;
    neither is a run in which another collaborator throws. *)
Class Collaborators : Type := {
  Document : Type;
  Block : Type;
  Field : Type;
  (* workspace *)
  getBlockById : Document -> JsValue -> option Block;
  workspace_id : Document -> Block -> JsValue;
  workspace_rendered : Document -> Block -> bool;
  (* block: queries *)
  block_id : Document -> Block -> JsValue;
  isShadow : Document -> Block -> bool;
  has_mutator : Document -> Block -> bool;
  getField : Document -> Block -> JsValue -> option Field;
  has_mutationToDom : Document -> Block -> bool;
  has_domToMutation : Document -> Block -> bool;
  mutationToDom : Document -> Block -> JsValue;
  (* block: commands *)
  dispose : Block -> bool -> Document -> Document;
  mutator_setVisible : Block -> bool -> Document -> Document;
  setValue : Field -> JsValue -> Document -> Document;
  setCommentText : Block -> JsValue -> Document -> Document;
  setCollapsed : Block -> bool -> Document -> Document;
  setEnabled : Block -> bool -> Document -> Document;
  setInputsInline : Block -> bool -> Document -> Document;
  domToMutation : Block -> JsValue -> Document -> Document;
  (* Blockly.Events, Blockly.Xml, Blockly.utils.xml *)
  getDescendantIds : Document -> Block -> list JsValue;
  blockToDom : Document -> Block -> JsValue;
  blockToDomWithXY : Document -> Block -> JsValue;
  domToText : JsValue -> JsValue;
  textToDom : JsValue -> JsValue;
  textToDom_throws : JsValue -> bool;
  createElement : string -> JsValue;
  appendChild : JsValue -> JsValue -> JsValue;
  domToWorkspace : JsValue -> Document -> Document
}.

Section Events.

Context {collaborators : Collaborators}.

(** *** The world a run acts on *)

(** The document, the diagnostic console, the events fired so far, and the
    ambient group that a new event picks up.  [console] and [fired] hold
    what the run itself logs with [console.warn] and hands to
    [Blockly.Events.fire], in order; what collaborators log or fire on
    their own is not part of them.

    Modelled from the spec: [getEventWorkspace_], which is not part of the
    excerpt, resolves the event's workspace identifier to the live
    document; [doc] is that document, and every [workspace.] or [block.]
    call of a run reads or changes it as it is at that moment. *)
Record World : Type := mkWorld {
  doc : Document;
  console : list Warning;
  fired : list BlockChange;
  ambient_group : JsValue
}.

(** A run ends normally or is cut short by an error. *)
Inductive Outcome (A : Type) : Type :=
| Normal (a : A) (w : World)
| Thrown (e : JsError) (w : World).

Arguments Normal {A} a w.
Arguments Thrown {A} e w.

Definition M (A : Type) : Type := World -> Outcome A.

Definition ret {A : Type} (a : A) : M A := fun w => Normal a w.

Definition bind {A B : Type} (c : M A) (k : A -> M B) : M B :=
  fun w =>
    match c w with
    | Normal a w' => k a w'
    | Thrown e w' => Thrown e w'
    end.

Definition throw {A : Type} (e : JsError) : M A := fun w => Thrown e w.

(** Reading the document, by a call that returns. *)
Definition query {A : Type} (q : Document -> A) : M A :=
  fun w => Normal (q (doc w)) w.

Definition with_doc (f : Document -> Document) (w : World) : World :=
  mkWorld (f (doc w)) (console w) (fired w) (ambient_group w).

(** Calling a method that changes the document, and returns. *)
Definition command (f : Document -> Document) : M unit :=
  fun w => Normal tt (with_doc f w).

Definition warn (text : string) (arg : JsValue) (w : World) : World :=
  mkWorld (doc w) (console w ++ [mkWarning text arg]) (fired w)
    (ambient_group w).

(** [console.warn(text + arg)]. *)
Definition console_warn (text : string) (arg : JsValue) : M unit :=
  fun w => Normal tt (warn text arg w).

Definition enqueue (e : BlockChange) (w : World) : World :=
  mkWorld (doc w) (console w) (fired w ++ [e]) (ambient_group w).

(** Modelled from the spec: [Blockly.Events.fire], which is not part of the
    excerpt.  The fired event is pushed to the dispatch log. *)
Definition Events_fire (e : BlockChange) : M unit :=
  fun w => Normal tt (enqueue e w).

End Events.

Arguments Normal {collaborators A} a w.
Arguments Thrown {collaborators A} e w.

Declare Scope run_scope.
Delimit Scope run_scope with run.
Notation "x <- c ;; k" := (bind c (fun x => k))
  (at level 61, c at next level, right associativity) : run_scope.
Notation "c ;; k" := (bind c (fun _ => k))
  (at level 61, right associativity) : run_scope.

Section BlockEvents.

Context {collaborators : Collaborators}.

Local Open Scope run_scope.

(** *** The event base *)

(** Modelled from the spec: the constructor of the block-scoped event base
    ([Blockly.Events.BlockBase]), which is not part of the excerpt.  The
    group is taken from the ambient state, [recordUndo] defaults to true,
    and the identifiers are those of the block and of its workspace; a
    blank event has no identifiers yet. *)
Definition BlockBase_new (ambient : JsValue) (d : Document)
    (opt_block : option Block) : BlockBase :=
  match opt_block with
  | Some block =>
      mkBlockBase (workspace_id d block) ambient (JsBool true)
        (block_id d block)
  | None => mkBlockBase JsUndefined ambient (JsBool true) JsUndefined
  end.

(** Modelled from the spec: the base serializer, which is not part of the
    excerpt.  It writes the type, and the group and block identifier (both
    optional in the record shape) when the event has one. *)
Definition BlockBase_toJson (t : EventType) (this : BlockBase) : BaseJson :=
  mkBaseJson t
    (if ToBoolean (group this) then Some (group this) else None)
    (if ToBoolean (blockId this) then Some (blockId this) else None).

(** Modelled from the spec: the base deserializer, which is not part of
    the excerpt.  It restores the base fields that the record carries. *)
Definition BlockBase_fromJson (this : BlockBase) (json : BaseJson)
    : BlockBase :=
  mkBlockBase (workspaceId this) (js_get (json_group json))
    (recordUndo this) (js_get (json_blockId json)).

(** *** Blockly.Events.BlockCreate *)

Definition BlockCreate_new (ambient : JsValue) (d : Document)
    (opt_block : option Block) : BlockCreate :=
  let this := mkBlockCreate (BlockBase_new ambient d opt_block)
                JsUndefined None in
  match opt_block with
  | None => this
  | Some opt_block =>
      let this :=
        if isShadow d opt_block then
          mkBlockCreate (set_recordUndo (JsBool false) (create_base this))
            (xml this) (ids this)
        else this in
      let this :=
        if workspace_rendered d opt_block then
          mkBlockCreate (create_base this) (blockToDomWithXY d opt_block)
            (ids this)
        else
          mkBlockCreate (create_base this) (blockToDom d opt_block)
            (ids this) in
      mkBlockCreate (create_base this) (xml this)
        (Some (getDescendantIds d opt_block))
  end.



(** The loop of the backward run,
    [for (var i = 0, id; (id = this.ids[i]); i++)], over the entries from
    index [i] on: reading past the end gives [undefined], which ends the
    loop like any other falsy entry. *)
Fixpoint uncreate (this_blockId : JsValue) (ids_from_i : list JsValue)
    : M unit :=
  match ids_from_i with
  | [] => ret tt
  | id :: rest =>
      if ToBoolean id then
        block <- query (fun workspace => getBlockById workspace id) ;;
        match block with
        | Some block => command (dispose block false)
        | None =>
            if loose_eq id this_blockId then
              console_warn "Can't uncreate non-existent block: " id
            else ret tt
        end ;;
        uncreate this_blockId rest
      else ret tt
  end.

(** Run forward, [xml.appendChild(this.xml)] throws a [TypeError] when
    [this.xml] is no node: when it is unset, as on a blank event, or holds
    any other primitive value. *)
Definition BlockCreate_run (this : BlockCreate) (forward : bool) : M unit :=
  if forward then
    let xml' := createElement "xml" in
    match xml this with
    | Js.Prim _ => throw TypeError
    | Js.Object _ _ =>
        let xml' := appendChild xml' (xml this) in
        command (domToWorkspace xml')
    end
  else
    match ids this with
    | Some ids => uncreate (blockId (create_base this)) ids
    | None => throw TypeError
    end.

(** *** Blockly.Events.BlockChange *)

Definition BlockChange_new (ambient : JsValue) (d : Document)
    (opt_block : option Block)
    (opt_element opt_name opt_oldValue opt_newValue : JsValue)
    : BlockChange :=
  let base := BlockBase_new ambient d opt_block in
  match opt_block with
  | None => mkBlockChange base JsUndefined JsUndefined JsUndefined JsUndefined
  | Some _ =>
      mkBlockChange base
        (if String.eqb (js_typeof opt_element) "undefined"
         then JsString "" else opt_element)
        (if String.eqb (js_typeof opt_name) "undefined"
         then JsString "" else opt_name)
        (if String.eqb (js_typeof opt_oldValue) "undefined"
         then JsString "" else opt_oldValue)
        (if String.eqb (js_typeof opt_newValue) "undefined"
         then JsString "" else opt_newValue)
  end.

Definition BlockChange_toJson (this : BlockChange) : ChangeJson :=
  let json := BlockBase_toJson BLOCK_CHANGE (change_base this) in
  mkChangeJson json
    (element this)
    (if ToBoolean (name this) then Some (name this) else None)
    (oldValue this)
    (newValue this).

Definition BlockChange_fromJson (this : BlockChange) (json : ChangeJson)
    : BlockChange :=
  mkBlockChange
    (BlockBase_fromJson (change_base this) (change_json_base json))
    (json_element json)
    (js_get (json_name json))
    (json_oldValue json)
    (json_newValue json).

Definition isNull (this : BlockChange) : bool :=
  loose_eq (oldValue this) (newValue this).

(** [new Blockly.Events.BlockChange(...)] evaluated during a run: the
    constructor reads the ambient group and the block as they are then. *)
Definition new_BlockChange (block : Block)
    (opt_element opt_name opt_oldValue opt_newValue : JsValue)
    : M BlockChange :=
  fun w =>
    Normal
      (BlockChange_new (ambient_group w) (doc w) (Some block)
         opt_element opt_name opt_oldValue opt_newValue)
      w.

(** [Blockly.Xml.textToDom(text)] during a run: the element, or the error
    thrown on a text that does not parse. *)
Definition Xml_textToDom (text : JsValue) : M JsValue :=
  fun w =>
    if textToDom_throws text then Thrown ParseError w
    else Normal (textToDom text) w.

Definition BlockChange_run (this : BlockChange) (forward : bool) : M unit :=
  block <- query (fun workspace =>
                   getBlockById workspace (blockId (change_base this))) ;;
  match block with
  | None =>
      console_warn "Can't change non-existent block: "
        (blockId (change_base this))
  | Some block =>
      mutator <- query (fun d => has_mutator d block) ;;
      (if mutator then command (mutator_setVisible block false)
       else ret tt) ;;
      let value := if forward then newValue this else oldValue this in
      if strict_eq (element this) (JsString "field") then
        field <- query (fun d => getField d block (name this)) ;;
        match field with
        | Some field => command (setValue field value)
        | None => console_warn "Can't set non-existent field: " (name this)
        end
      else if strict_eq (element this) (JsString "comment") then
        command (setCommentText block (js_or value JsNull))
      else if strict_eq (element this) (JsString "collapsed") then
        command (setCollapsed block (ToBoolean value))
      else if strict_eq (element this) (JsString "disabled") then
        command (setEnabled block (negb (ToBoolean value)))
      else if strict_eq (element this) (JsString "inline") then
        command (setInputsInline block (ToBoolean value))
      else if strict_eq (element this) (JsString "mutation") then
        has_hook <- query (fun d => has_mutationToDom d block) ;;
        oldMutation <-
          (if has_hook then
             oldMutationDom <- query (fun d => mutationToDom d block) ;;
             ret (js_and oldMutationDom (domToText oldMutationDom))
           else ret (JsString "")) ;;
        has_hook' <- query (fun d => has_domToMutation d block) ;;
        (if has_hook' then
           dom <- Xml_textToDom (js_or value (JsString "<mutation/>")) ;;
           command (domToMutation block dom)
         else ret tt) ;;
        echo <- new_BlockChange block (JsString "mutation") JsNull
                  oldMutation value ;;
        Events_fire echo
      else console_warn "Unknown change type: " (element this)
  end.

End BlockEvents.

(** ** The effects of a run, stated apart from the code

    The definitions below describe, in the words of the specification,
    what a run does to the world; the properties relate them to the runs
    defined above. *)

(** The entries before the first falsy one. *)
Fixpoint truthy_prefix (l : list JsValue) : list JsValue :=
  match l with
  | [] => []
  | id :: rest => if ToBoolean id then id :: truthy_prefix rest else []
  end.

Section Specification.

Context {collaborators : Collaborators}.

(** What undoing one identifier does, in the words of the spec: a block
    that the lookup finds is disposed; a missing root is reported; any
    other missing block is passed over. *)
Definition undo_one (root : JsValue) (w : World) (id : JsValue) : World :=
  match getBlockById (doc w) id with
  | Some block => with_doc (dispose block false) w
  | None =>
      if loose_eq id root
      then warn "Can't uncreate non-existent block: " id w
      else w
  end.

(** Closing the mutator editor of a block that has one. *)
Definition close_mutator (block : Block) (w : World) : World :=
  if has_mutator (doc w) block
  then with_doc (mutator_setVisible block false) w
  else w.

(** The structural state captured before a mutation is applied: the empty
    string without a [mutationToDom] hook; otherwise the text of the
    element the hook returns, or the hook's own result when that is
    falsy. *)
Definition captured_mutation (block : Block) (w : World) : JsValue :=
  if has_mutationToDom (doc w) block then
    js_and (mutationToDom (doc w) block)
      (domToText (mutationToDom (doc w) block))
  else JsString "".

(** The world after the new structural state has been parsed and handed
    to the [domToMutation] hook, if the block has one. *)
Definition apply_mutation (block : Block) (value : JsValue) (w : World)
    : World :=
  if has_domToMutation (doc w) block then
    with_doc
      (domToMutation block (textToDom (js_or value (JsString "<mutation/>"))))
      w
  else w.

(** How a constructor parameter is stored: an absent ([undefined])
    parameter as the empty string, a present one as it is; the stored
    field is never [undefined]. *)
Definition stored_as (parameter field : JsValue) : Prop :=
  (parameter = JsUndefined -> field = JsString "")
  /\ (parameter <> JsUndefined -> field = parameter)
  /\ field <> JsUndefined.

End Specification.

(** ** A reference document *)

(** Modelled from the spec: the workspace, its blocks and the XML helpers,
    none of which is part of the excerpt.  A small workspace with the
    interface the events require of their collaborators (block lookup by
    identifier, disposal, fields, comment, flags, the optional mutation
    hooks and the mutator editor), against which the events are evaluated
    on concrete inputs. *)

Module Reference.

Record SimpleBlock : Type := mkSimpleBlock {
  sb_id : string;
  sb_shadow : bool;
  sb_fields : list (string * JsValue);
  sb_comment : JsValue;
  sb_collapsed : bool;
  sb_enabled : bool;
  sb_inline : bool;
  (* the mutation the hooks read and write; [None] for a block without hooks *)
  sb_mutation : option JsValue;
  (* whether the mutator editor is open; [None] for a block without one *)
  sb_mutator : option bool;
  (* the identifiers of the blocks below this one *)
  sb_descendants : list string
}.

Record SimpleDocument : Type := mkSimpleDocument {
  sd_id : string;
  sd_rendered : bool;
  sd_blocks : list SimpleBlock
}.

Definition find_block (d : SimpleDocument) (id : string) : option SimpleBlock :=
  find (fun b => String.eqb (sb_id b) id) (sd_blocks d).

Definition update_block (id : string) (f : SimpleBlock -> SimpleBlock)
    (d : SimpleDocument) : SimpleDocument :=
  mkSimpleDocument (sd_id d) (sd_rendered d)
    (map (fun b => if String.eqb (sb_id b) id then f b else b) (sd_blocks d)).

Definition block_view {A : Type} (d : SimpleDocument) (id : string)
    (absent : A) (f : SimpleBlock -> A) : A :=
  match find_block d id with
  | Some b => f b
  | None => absent
  end.

Definition is_some {A : Type} (o : option A) : bool :=
  match o with
  | Some _ => true
  | None => false
  end.

Definition mem (id : string) (l : list string) : bool :=
  existsb (String.eqb id) l.

Definition simple_getBlockById (d : SimpleDocument) (id : JsValue)
    : option string :=
  match id with
  | JsString s => if is_some (find_block d s) then Some s else None
  | _ => None
  end.

(** Disposing a block removes it together with the blocks below it. *)
Definition simple_dispose (id : string) (healStack : bool)
    (d : SimpleDocument) : SimpleDocument :=
  let below := block_view d id [] sb_descendants in
  mkSimpleDocument (sd_id d) (sd_rendered d)
    (filter (fun b => negb (String.eqb (sb_id b) id || mem (sb_id b) below))
       (sd_blocks d)).

Definition simple_getField (d : SimpleDocument) (id : string) (name : JsValue)
    : option (string * string) :=
  match name with
  | JsString n =>
      if block_view d id false
           (fun b => existsb (fun f => String.eqb (fst f) n) (sb_fields b))
      then Some (id, n) else None
  | _ => None
  end.

Definition simple_setValue (field : string * string) (v : JsValue)
    : SimpleDocument -> SimpleDocument :=
  update_block (fst field) (fun b =>
    mkSimpleBlock (sb_id b) (sb_shadow b)
      (map (fun f => if String.eqb (fst f) (snd field) then (fst f, v) else f)
         (sb_fields b))
      (sb_comment b) (sb_collapsed b) (sb_enabled b) (sb_inline b)
      (sb_mutation b) (sb_mutator b) (sb_descendants b)).

Definition simple_setCommentText (id : string) (v : JsValue)
    : SimpleDocument -> SimpleDocument :=
  update_block id (fun b =>
    mkSimpleBlock (sb_id b) (sb_shadow b) (sb_fields b) v (sb_collapsed b)
      (sb_enabled b) (sb_inline b) (sb_mutation b) (sb_mutator b)
      (sb_descendants b)).

Definition simple_setCollapsed (id : string) (v : bool)
    : SimpleDocument -> SimpleDocument :=
  update_block id (fun b =>
    mkSimpleBlock (sb_id b) (sb_shadow b) (sb_fields b) (sb_comment b) v
      (sb_enabled b) (sb_inline b) (sb_mutation b) (sb_mutator b)
      (sb_descendants b)).

Definition simple_setEnabled (id : string) (v : bool)
    : SimpleDocument -> SimpleDocument :=
  update_block id (fun b =>
    mkSimpleBlock (sb_id b) (sb_shadow b) (sb_fields b) (sb_comment b)
      (sb_collapsed b) v (sb_inline b) (sb_mutation b) (sb_mutator b)
      (sb_descendants b)).

Definition simple_setInputsInline (id : string) (v : bool)
    : SimpleDocument -> SimpleDocument :=
  update_block id (fun b =>
    mkSimpleBlock (sb_id b) (sb_shadow b) (sb_fields b) (sb_comment b)
      (sb_collapsed b) (sb_enabled b) v (sb_mutation b) (sb_mutator b)
      (sb_descendants b)).

Definition simple_domToMutation (id : string) (dom : JsValue)
    : SimpleDocument -> SimpleDocument :=
  update_block id (fun b =>
    mkSimpleBlock (sb_id b) (sb_shadow b) (sb_fields b) (sb_comment b)
      (sb_collapsed b) (sb_enabled b) (sb_inline b) (Some dom) (sb_mutator b)
      (sb_descendants b)).

Definition simple_mutator_setVisible (id : string) (visible : bool)
    : SimpleDocument -> SimpleDocument :=
  update_block id (fun b =>
    mkSimpleBlock (sb_id b) (sb_shadow b) (sb_fields b) (sb_comment b)
      (sb_collapsed b) (sb_enabled b) (sb_inline b) (sb_mutation b)
      (match sb_mutator b with Some _ => Some visible | None => None end)
      (sb_descendants b)).

(** A DOM node is an object that carries its text.  Its reference is
    computed from the text, so that nodes of different texts are different
    objects, and a node that the parser makes is never the node that a
    block was serialized to. *)
Fixpoint text_code (position : nat) (text : string) : nat :=
  match text with
  | EmptyString => 0
  | String c rest => position * nat_of_ascii c + text_code (S position) rest
  end.

Definition node (text : string) : JsValue :=
  Js.Object (2 * text_code 1 text) (Js.Str text).

Definition parsed_node (text : string) : JsValue :=
  Js.Object (S (2 * text_code 1 text)) (Js.Str text).

(** The texts that the parser accepts: a tag, from [<] to [>], in which
    every attribute value is quoted. *)
Fixpoint attributes_quoted (l : list ascii) : bool :=
  match l with
  | [] => true
  | c :: rest =>
      if Nat.eqb (nat_of_ascii c) 61 then
        match rest with
        | q :: _ =>
            (Nat.eqb (nat_of_ascii q) 39 || Nat.eqb (nat_of_ascii q) 34)
            && attributes_quoted rest
        | [] => false
        end
      else attributes_quoted rest
  end.

Definition parses (text : string) : bool :=
  let l := list_ascii_of_string text in
  match l with
  | c :: _ =>
      Nat.eqb (nat_of_ascii c) 60
      && Nat.eqb (nat_of_ascii (last l c)) 62
      && attributes_quoted l
  | [] => false
  end.

Definition simple_domToText (dom : JsValue) : JsValue :=
  match dom with
  | Js.Object _ text => Js.Prim text
  | _ => JsString ""
  end.

Definition simple_textToDom (text : JsValue) : JsValue :=
  match text with
  | JsString t => parsed_node t
  | _ => JsNull
  end.

Definition simple_textToDom_throws (text : JsValue) : bool :=
  match text with
  | JsString t => negb (parses t)
  | _ => true
  end.

(** Inserting the XML of a block adds a plain block of that identifier. *)
Definition simple_domToWorkspace (dom : JsValue) (d : SimpleDocument)
    : SimpleDocument :=
  match dom with
  | Js.Object _ (Js.Str id) =>
      if is_some (find_block d id) then d
      else
        mkSimpleDocument (sd_id d) (sd_rendered d)
          (sd_blocks d ++
           [mkSimpleBlock id false [] JsNull false true false None None []])
  | _ => d
  end.

#[export] Instance simple : Collaborators := {|
  Document := SimpleDocument;
  Block := string;
  Field := string * string;
  getBlockById := simple_getBlockById;
  workspace_id := fun d _ => JsString (sd_id d);
  workspace_rendered := fun d _ => sd_rendered d;
  block_id := fun _ id => JsString id;
  isShadow := fun d id => block_view d id false sb_shadow;
  has_mutator := fun d id => block_view d id false (fun b => is_some (sb_mutator b));
  getField := simple_getField;
  has_mutationToDom := fun d id => block_view d id false (fun b => is_some (sb_mutation b));
  has_domToMutation := fun d id => block_view d id false (fun b => is_some (sb_mutation b));
  mutationToDom := fun d id => block_view d id JsUndefined (fun b => js_get (sb_mutation b));
  dispose := simple_dispose;
  mutator_setVisible := simple_mutator_setVisible;
  setValue := simple_setValue;
  setCommentText := simple_setCommentText;
  setCollapsed := simple_setCollapsed;
  setEnabled := simple_setEnabled;
  setInputsInline := simple_setInputsInline;
  domToMutation := simple_domToMutation;
  getDescendantIds := fun d id =>
    JsString id :: map (fun s => JsString s) (block_view d id [] sb_descendants);
  blockToDom := fun _ id => node id;
  blockToDomWithXY := fun _ id => node id;
  domToText := simple_domToText;
  textToDom := simple_textToDom;
  textToDom_throws := simple_textToDom_throws;
  createElement := fun _ => node "";
  appendChild := fun _ child => child;
  domToWorkspace := simple_domToWorkspace
|}.

(** A block with a field, a comment, mutation hooks that currently report
    no mutation, and an open mutator editor; below it a shadow block; and a
    plain block with neither hooks nor editor. *)
Definition parent_block : SimpleBlock :=
  mkSimpleBlock "b1" false [("NUM", JsString "1")] JsNull false true false
    (Some JsNull) (Some true) ["b2"].

Definition shadow_block : SimpleBlock :=
  mkSimpleBlock "b2" true [] JsNull false true false None None [].

Definition plain_block : SimpleBlock :=
  mkSimpleBlock "b3" false [] JsNull false true false None None [].

Definition document : SimpleDocument :=
  mkSimpleDocument "w1" true [parent_block; shadow_block; plain_block].

Definition world : World := mkWorld document [] [] (JsString "").

End Reference.

(** ** The events on the reference document *)

Module Scenario.

Import Reference.

(** The creation of block [b1] (with the shadow block [b2] below it). *)
Definition created : BlockCreate :=
  BlockCreate_new (JsString "") document (Some "b1").

(** The same event, deserialized from a record whose [ids] holds an empty
    identifier in front of [b1]. *)
Definition created_after_gap : BlockCreate :=
  mkBlockCreate (create_base created) (xml created)
    (Some [JsString ""; JsString "b1"]).

(** The same event with an empty identifier between [b2] and [b1]. *)
Definition created_with_gap : BlockCreate :=
  mkBlockCreate (create_base created) (xml created)
    (Some [JsString "b2"; JsString ""; JsString "b1"]).



(** A blank change event. *)
Definition blank_change : BlockChange :=
  BlockChange_new (JsString "") document None
    JsUndefined JsUndefined JsUndefined JsUndefined.

(** A change of the field [NUM] of [b1] whose old and new value are both
    [NaN]. *)
Definition change_NaN : BlockChange :=
  BlockChange_new (JsString "") document (Some "b1")
    (JsString "field") (JsString "NUM") (JsNumber nan) (JsNumber nan).

(** A change of the comment of [b1], constructed without a name. *)
Definition change_comment : BlockChange :=
  BlockChange_new (JsString "") document (Some "b1")
    (JsString "comment") JsUndefined (JsString "") (JsString "hello").

(** A change of a field that [b1] does not have. *)
Definition change_missing_field : BlockChange :=
  BlockChange_new (JsString "") document (Some "b1")
    (JsString "field") (JsString "TEXT") (JsString "") (JsString "2").

(** A change of a block that the document does not hold. *)
Definition change_missing_block : BlockChange :=
  mkBlockChange
    (mkBlockBase (JsString "w1") (JsString "") (JsBool true) (JsString "b9"))
    (JsString "collapsed") (JsString "") (JsBool false) (JsBool true).

(** A mutation of [b1], whose [mutationToDom] hook reports no mutation, to
    a text that the parser refuses: the attribute value has no quotes. *)
Definition change_mutation : BlockChange :=
  BlockChange_new (JsString "") document (Some "b1")
    (JsString "mutation") JsUndefined (JsString "")
    (JsString "<mutation items=3/>").

(** A mutation of [b3], which has no mutation hooks. *)
Definition change_mutation_plain : BlockChange :=
  BlockChange_new (JsString "") document (Some "b3")
    (JsString "mutation") JsUndefined (JsString "")
    (JsString "<mutation items=3/>").

(** What a run that returns leaves: the events fired and the blocks of the
    document. *)
Definition fired_by (o : Outcome unit) : list BlockChange :=
  match o with
  | Normal _ w => fired w
  | Thrown _ _ => []
  end.

Definition blocks_after (o : Outcome unit) : list string :=
  match o with
  | Normal _ w => map sb_id (sd_blocks (doc w))
  | Thrown _ _ => []
  end.

End Scenario.

(** ** The dispatch of a change event *)

(** The elements that the run of a change event knows. *)
Definition known_elements : list string :=
  ["field"; "comment"; "collapsed"; "disabled"; "inline"; "mutation"].

(** Whether [element] selects one of the cases of the [switch], which
    compares with [===]. *)
Definition is_known_element (element : JsValue) : bool :=
  existsb (fun s => strict_eq element (JsString s)) known_elements.

(** The warning of a backward run about a missing root block. *)
Definition uncreate_warning (root : JsValue) (ids : list JsValue)
    (m : Warning) : Prop :=
  warn_text m = "Can't uncreate non-existent block: "
  /\ In (warn_arg m) ids
  /\ ToBoolean (warn_arg m) = true
  /\ loose_eq (warn_arg m) root = true.

(** More events on the reference document. *)
Module Replay.

Import Reference.

(** Collapsing [b1]. *)
Definition collapse : BlockChange :=
  BlockChange_new (JsString "") document (Some "b1")
    (JsString "collapsed") JsUndefined (JsBool false) (JsBool true).

(** A ['disabled'] change of [b1] whose new value is the text [false]. *)
Definition disable_by_text : BlockChange :=
  BlockChange_new (JsString "") document (Some "b1")
    (JsString "disabled") JsUndefined (JsBool false) (JsString "false").

(** Setting the inline flag of [b1]. *)
Definition inline : BlockChange :=
  BlockChange_new (JsString "") document (Some "b1")
    (JsString "inline") JsUndefined (JsBool false) (JsBool true).

(** Setting and clearing the comment of [b1]. *)
Definition comment : BlockChange :=
  BlockChange_new (JsString "") document (Some "b1")
    (JsString "comment") JsUndefined (JsString "") (JsString "hello").

(** Changing the field [NUM] of [b1]. *)
Definition field_NUM : BlockChange :=
  BlockChange_new (JsString "") document (Some "b1")
    (JsString "field") (JsString "NUM") (JsString "1") (JsString "2").

(** A change with an element spelled in capitals. *)
Definition unknown : BlockChange :=
  BlockChange_new (JsString "") document (Some "b1")
    (JsString "FIELD") (JsString "NUM") (JsString "1") (JsString "2").

(** A creation event whose [ids] name the root twice. *)
Definition created_twice : BlockCreate :=
  mkBlockCreate (create_base Scenario.created) (xml Scenario.created)
    (Some [JsString "b1"; JsString "b2"; JsString "b1"]).

(** A record of a change whose name key holds the empty string. *)
Definition record_with_empty_name : ChangeJson :=
  mkChangeJson (BlockBase_toJson BLOCK_CHANGE (change_base comment))
    (JsString "comment") (Some (JsString "")) (JsString "") (JsString "x").

Definition block_of (o : Outcome unit) (id : string) : option SimpleBlock :=
  match o with
  | Normal _ w => find_block (doc w) id
  | Thrown _ _ => None
  end.

End Replay.

(** Mutations on the reference blocks. *)
Module Mutated.

Import Reference.

(** A block whose mutation hooks report two items. *)
Definition shaped_block : SimpleBlock :=
  mkSimpleBlock "m1" false [] JsNull false true false
    (Some (parsed_node "<mutation items='2'/>")) None [].

Definition document : SimpleDocument :=
  mkSimpleDocument "w2" true [shaped_block; parent_block].

Definition world : World := mkWorld document [] [] (JsString "").

(** Giving [m1] three items. *)
Definition reshape : BlockChange :=
  BlockChange_new (JsString "") document (Some "m1")
    (JsString "mutation") JsUndefined (JsString "<mutation items='2'/>")
    (JsString "<mutation items='3'/>").

(** Giving [b1], whose hook reports no mutation, three items. *)
Definition reshape_parent : BlockChange :=
  BlockChange_new (JsString "") document (Some "b1")
    (JsString "mutation") JsUndefined (JsString "")
    (JsString "<mutation items='3'/>").

(** A mutation of [m1] whose text has an attribute without quotes. *)
Definition reshape_unparsable : BlockChange :=
  BlockChange_new (JsString "") document (Some "m1")
    (JsString "mutation") JsUndefined (JsString "<mutation items='2'/>")
    (JsString "<mutation items=3/>").

End Mutated.

(** ** Blockly.ScrollbarPair *)

Module ScrollbarPair.

(** The fields of [Blockly.utils.Metrics] that the pair reads. *)
Record Metrics : Type := mkMetrics {
  viewWidth : JsValue;
  viewHeight : JsValue;
  absoluteTop : JsValue;
  absoluteLeft : JsValue;
  scrollWidth : JsValue;
  viewLeft : JsValue;
  scrollLeft : JsValue;
  scrollHeight : JsValue;
  viewTop : JsValue;
  scrollTop : JsValue
}.

(** A scrollbar, as the pair made it:
    [new Blockly.Scrollbar(workspace, horizontal, opt_pair, opt_class,
    opt_margin)]. *)
Record Scrollbar : Type := mkScrollbar {
  horizontal : bool;
  opt_pair : JsValue;
  opt_class : JsValue;
  opt_margin : JsValue
}.

(** The pair.  [workspace_] and [corner_] tell whether the property holds
    an object; an unset scrollbar is [None]. *)
Record Pair : Type := mkPair {
  workspace_ : bool;
  hScroll : option Scrollbar;
  vScroll : option Scrollbar;
  corner_ : bool;
  oldHostMetrics_ : option Metrics
}.

(** The calls that the pair makes to its collaborators, none of which is
    part of the excerpt: the scrollbars, the workspace, the DOM helpers
    and [Blockly.Events]. *)
Inductive Call : Type :=
| NewScrollbar (s : Scrollbar)
| CreateSvgElement
| GetBubbleCanvas
| InsertAfter
| RemoveNode (corner : bool)
| ScrollbarDispose (s : Scrollbar)
| GetMetrics
| EventsDisable
| EventsEnable
| ScrollbarResize (s : Scrollbar) (hostMetrics : Metrics)
| MaybeFireViewportChangeEvent
(* this.corner_.setAttribute(attribute, s.position[attribute]) *)
| CornerSetAttribute (attribute : string) (s : Scrollbar)
| ScrollbarSetOrigin (s : Scrollbar) (x y : JsValue)
| ScrollbarSet (s : Scrollbar) (value : JsValue) (updateMetrics : bool)
| GetRatio (s : Scrollbar)
| SetMetrics (x y : option JsValue)
| ScrollbarSetContainerVisible (s : Scrollbar) (visible : JsValue)
| ScrollbarIsVisible (s : Scrollbar)
| ResizeContentHorizontal (s : Scrollbar) (hostMetrics : Metrics)
| ResizeContentVertical (s : Scrollbar) (hostMetrics : Metrics)
| ResizeViewHorizontal (s : Scrollbar) (hostMetrics : Metrics)
| ResizeViewVertical (s : Scrollbar) (hostMetrics : Metrics).

(** How the collaborators answer during one method call: which calls
    throw, what [workspace.getMetrics()] returns ([None] for a host that
    is not visible), and what a scrollbar reports. *)
Record Host : Type := mkHost {
  throws : Call -> bool;
  getMetrics : option Metrics;
  getRatio_ : Scrollbar -> JsValue;
  scrollbar_isVisible : Scrollbar -> JsValue
}.

(** Why a method call was cut short: by the language (a property read
    from [null]), or by a collaborator that threw. *)
Inductive Failure : Type :=
| Language (e : JsError)
| Raised (c : Call).

Inductive Result (A : Type) : Type :=
| Returned (a : A)
| Threw (f : Failure).

Arguments Returned {A} a.
Arguments Threw {A} f.

(** The pair and the calls made so far, oldest first. *)
Record State : Type := mkState {
  this : Pair;
  calls : list Call
}.

Definition T (A : Type) : Type := State -> Result A * State.

Definition ret {A : Type} (a : A) : T A := fun s => (Returned a, s).

Definition bind {A B : Type} (c : T A) (k : A -> T B) : T B :=
  fun s =>
    match c s with
    | (Returned a, s') => k a s'
    | (Threw f, s') => (Threw f, s')
    end.

Definition throw {A : Type} (f : Failure) : T A := fun s => (Threw f, s).

(** [try { body } finally { final }]: [final] runs whether or not [body]
    threw; what [final] throws replaces what [body] threw. *)
Definition try_finally {A : Type} (body : T A) (final : T unit) : T A :=
  fun s =>
    match body s with
    | (r, s') =>
        match final s' with
        | (Returned _, s'') => (r, s'')
        | (Threw f, s'') => (Threw f, s'')
        end
    end.

Definition read {A : Type} (field : Pair -> A) : T A :=
  fun s => (Returned (field (this s)), s).

Definition write (update : Pair -> Pair) : T unit :=
  fun s => (Returned tt, mkState (update (this s)) (calls s)).

Declare Scope pair_scope.
Delimit Scope pair_scope with pair.
Notation "x <- c ;; k" := (bind c (fun x => k))
  (at level 61, c at next level, right associativity) : pair_scope.
Notation "c ;; k" := (bind c (fun _ => k))
  (at level 61, right associativity) : pair_scope.

Local Open Scope pair_scope.

Definition set_workspace_ (v : bool) (p : Pair) : Pair :=
  mkPair v (hScroll p) (vScroll p) (corner_ p) (oldHostMetrics_ p).

Definition set_hScroll (v : option Scrollbar) (p : Pair) : Pair :=
  mkPair (workspace_ p) v (vScroll p) (corner_ p) (oldHostMetrics_ p).

Definition set_vScroll (v : option Scrollbar) (p : Pair) : Pair :=
  mkPair (workspace_ p) (hScroll p) v (corner_ p) (oldHostMetrics_ p).

Definition set_corner_ (v : bool) (p : Pair) : Pair :=
  mkPair (workspace_ p) (hScroll p) (vScroll p) v (oldHostMetrics_ p).

Definition set_oldHostMetrics_ (v : option Metrics) (p : Pair) : Pair :=
  mkPair (workspace_ p) (hScroll p) (vScroll p) (corner_ p) v.

(** The object under construction, no property set yet. *)
Definition blank : Pair := mkPair false None None false None.

(** [a != b]. *)
Definition js_neq (a b : JsValue) : bool := negb (loose_eq a b).

Section Methods.

Variable host : Host.

(** A call to a collaborator: it is made, and it returns or throws. *)
Definition call (c : Call) : T unit :=
  fun s =>
    let s' := mkState (this s) (calls s ++ [c]) in
    if throws host c then (Threw (Raised c), s') else (Returned tt, s').

(** A method call on [this.workspace_], which may have been released. *)
Definition workspace_call (c : Call) : T unit :=
  workspace <- read workspace_ ;;
  if workspace then call c else throw (Language TypeError).

(** [this.corner_.setAttribute(attribute, s.position[attribute])]. *)
Definition corner_setAttribute (attribute : string) (s : Scrollbar) : T unit :=
  corner <- read corner_ ;;
  if corner then call (CornerSetAttribute attribute s)
  else throw (Language TypeError).

Definition new_ScrollbarPair
    (addHorizontal addVertical opt_class opt_margin : JsValue) : T unit :=
  write (set_workspace_ true) ;;
  let addHorizontal :=
    if strict_eq addHorizontal JsUndefined then JsBool true
    else addHorizontal in
  let addVertical :=
    if strict_eq addVertical JsUndefined then JsBool true else addVertical in
  let isPair := js_and addHorizontal addVertical in
  (if ToBoolean addHorizontal then
     let s := mkScrollbar true isPair opt_class opt_margin in
     call (NewScrollbar s) ;;
     write (set_hScroll (Some s))
   else ret tt) ;;
  (if ToBoolean addVertical then
     let s := mkScrollbar false isPair opt_class opt_margin in
     call (NewScrollbar s) ;;
     write (set_vScroll (Some s))
   else ret tt) ;;
  (if ToBoolean isPair then
     call CreateSvgElement ;;
     write (set_corner_ true) ;;
     call GetBubbleCanvas ;;
     call InsertAfter
   else ret tt) ;;
  write (set_oldHostMetrics_ None).

Definition dispose : T unit :=
  corner <- read corner_ ;;
  call (RemoveNode corner) ;;
  write (set_corner_ false) ;;
  write (set_workspace_ false) ;;
  write (set_oldHostMetrics_ None) ;;
  h <- read hScroll ;;
  match h with
  | Some h => call (ScrollbarDispose h) ;; write (set_hScroll None)
  | None => ret tt
  end ;;
  v <- read vScroll ;;
  match v with
  | Some v => call (ScrollbarDispose v) ;; write (set_vScroll None)
  | None => ret tt
  end.

Definition resize : T unit :=
  workspace_call GetMetrics ;;
  match getMetrics host with
  | None => ret tt
  | Some hostMetrics =>
      old <- read oldHostMetrics_ ;;
      let '(resizeH, resizeV) :=
        if match old with
           | None => true
           | Some old =>
               js_neq (viewWidth old) (viewWidth hostMetrics)
               || js_neq (viewHeight old) (viewHeight hostMetrics)
               || js_neq (absoluteTop old) (absoluteTop hostMetrics)
               || js_neq (absoluteLeft old) (absoluteLeft hostMetrics)
           end
        then (true, true)
        else
          (match old with
           | None => true
           | Some old =>
               js_neq (scrollWidth old) (scrollWidth hostMetrics)
               || js_neq (viewLeft old) (viewLeft hostMetrics)
               || js_neq (scrollLeft old) (scrollLeft hostMetrics)
           end,
           match old with
           | None => true
           | Some old =>
               js_neq (scrollHeight old) (scrollHeight hostMetrics)
               || js_neq (viewTop old) (viewTop hostMetrics)
               || js_neq (scrollTop old) (scrollTop hostMetrics)
           end) in
      (if resizeH || resizeV then
         try_finally
           (call EventsDisable ;;
            h <- read hScroll ;;
            match h with
            | Some h =>
                if resizeH then call (ScrollbarResize h hostMetrics)
                else ret tt
            | None => ret tt
            end ;;
            v <- read vScroll ;;
            match v with
            | Some v =>
                if resizeV then call (ScrollbarResize v hostMetrics)
                else ret tt
            | None => ret tt
            end)
           (call EventsEnable) ;;
         workspace_call MaybeFireViewportChangeEvent
       else ret tt) ;;
      h <- read hScroll ;;
      v <- read vScroll ;;
      match h, v with
      | Some h, Some v =>
          (if match old with
              | None => true
              | Some old =>
                  js_neq (viewWidth old) (viewWidth hostMetrics)
                  || js_neq (absoluteLeft old) (absoluteLeft hostMetrics)
              end
           then corner_setAttribute "x" v else ret tt) ;;
          (if match old with
              | None => true
              | Some old =>
                  js_neq (viewHeight old) (viewHeight hostMetrics)
                  || js_neq (absoluteTop old) (absoluteTop hostMetrics)
              end
           then corner_setAttribute "y" h else ret tt)
      | _, _ => ret tt
      end ;;
      write (set_oldHostMetrics_ (Some hostMetrics))
  end.

Definition is_set (s : option Scrollbar) : bool :=
  match s with
  | Some _ => true
  | None => false
  end.

Definition canScrollHorizontally (p : Pair) : bool := is_set (hScroll p).

Definition canScrollVertically (p : Pair) : bool := is_set (vScroll p).

Definition setOrigin (x y : JsValue) : T unit :=
  h <- read hScroll ;;
  match h with
  | Some h => call (ScrollbarSetOrigin h x y)
  | None => ret tt
  end ;;
  v <- read vScroll ;;
  match v with
  | Some v => call (ScrollbarSetOrigin v x y)
  | None => ret tt
  end.

Definition set (x y updateMetrics : JsValue) : T unit :=
  h <- read hScroll ;;
  match h with
  | Some h => call (ScrollbarSet h x false)
  | None => ret tt
  end ;;
  v <- read vScroll ;;
  match v with
  | Some v => call (ScrollbarSet v y false)
  | None => ret tt
  end ;;
  if ToBoolean updateMetrics || strict_eq updateMetrics JsUndefined then
    h <- read hScroll ;;
    xyRatio_x <-
      match h with
      | Some h => call (GetRatio h) ;; ret (Some (getRatio_ host h))
      | None => ret None
      end ;;
    v <- read vScroll ;;
    xyRatio_y <-
      match v with
      | Some v => call (GetRatio v) ;; ret (Some (getRatio_ host v))
      | None => ret None
      end ;;
    workspace_call (SetMetrics xyRatio_x xyRatio_y)
  else ret tt.

Definition setX (x : JsValue) : T unit :=
  h <- read hScroll ;;
  match h with
  | Some h => call (ScrollbarSet h x true)
  | None => ret tt
  end.

Definition setY (y : JsValue) : T unit :=
  v <- read vScroll ;;
  match v with
  | Some v => call (ScrollbarSet v y true)
  | None => ret tt
  end.

Definition setContainerVisible (visible : JsValue) : T unit :=
  h <- read hScroll ;;
  match h with
  | Some h => call (ScrollbarSetContainerVisible h visible)
  | None => ret tt
  end ;;
  v <- read vScroll ;;
  match v with
  | Some v => call (ScrollbarSetContainerVisible v visible)
  | None => ret tt
  end.

Definition isVisible : T JsValue :=
  let isVisible := JsBool false in
  h <- read hScroll ;;
  isVisible <-
    match h with
    | Some h => call (ScrollbarIsVisible h) ;; ret (scrollbar_isVisible host h)
    | None => ret isVisible
    end ;;
  v <- read vScroll ;;
  isVisible <-
    match v with
    | Some v =>
        if ToBoolean isVisible then ret isVisible
        else call (ScrollbarIsVisible v) ;; ret (scrollbar_isVisible host v)
    | None => ret isVisible
    end ;;
  ret isVisible.

Definition resizeContent (hostMetrics : Metrics) : T unit :=
  h <- read hScroll ;;
  match h with
  | Some h => call (ResizeContentHorizontal h hostMetrics)
  | None => ret tt
  end ;;
  v <- read vScroll ;;
  match v with
  | Some v => call (ResizeContentVertical v hostMetrics)
  | None => ret tt
  end.

Definition resizeView (hostMetrics : Metrics) : T unit :=
  h <- read hScroll ;;
  match h with
  | Some h => call (ResizeViewHorizontal h hostMetrics)
  | None => ret tt
  end ;;
  v <- read vScroll ;;
  match v with
  | Some v => call (ResizeViewVertical v hostMetrics)
  | None => ret tt
  end.

End Methods.

(** *** Descriptions of a sequence of calls *)

(** Events are disabled exactly while scrollbars are resized: scanning the
    calls, [disabled] tells whether [Blockly.Events.disable()] is in
    force. *)
Fixpoint bracketed (disabled : bool) (l : list Call) : bool :=
  match l with
  | [] => negb disabled
  | EventsDisable :: rest => negb disabled && bracketed true rest
  | EventsEnable :: rest => disabled && bracketed false rest
  | ScrollbarResize _ _ :: rest => disabled && bracketed disabled rest
  | _ :: rest => bracketed disabled rest
  end.

Definition is_resize (c : Call) : bool :=
  match c with
  | ScrollbarResize _ _ => true
  | _ => false
  end.

Definition is_set_call_updating (c : Call) : bool :=
  match c with
  | ScrollbarSet _ _ updateMetrics => updateMetrics
  | _ => false
  end.

Definition is_setMetrics (c : Call) : bool :=
  match c with
  | SetMetrics _ _ => true
  | _ => false
  end.

(** Whether the ten metrics that [resize] compares are pairwise equal
    ([==]). *)
Definition same_metrics (a b : Metrics) : bool :=
  loose_eq (viewWidth a) (viewWidth b)
  && loose_eq (viewHeight a) (viewHeight b)
  && loose_eq (absoluteTop a) (absoluteTop b)
  && loose_eq (absoluteLeft a) (absoluteLeft b)
  && loose_eq (scrollWidth a) (scrollWidth b)
  && loose_eq (viewLeft a) (viewLeft b)
  && loose_eq (scrollLeft a) (scrollLeft b)
  && loose_eq (scrollHeight a) (scrollHeight b)
  && loose_eq (viewTop a) (viewTop b)
  && loose_eq (scrollTop a) (scrollTop b).

(** Collaborators that never throw. *)
Definition quiet (metrics : option Metrics) : Host :=
  mkHost (fun _ => false) metrics (fun _ => JsNumber 0)
    (fun s => JsBool (horizontal s)).

(** Collaborators among which resizing the horizontal scrollbar throws. *)
Definition faulty (metrics : option Metrics) : Host :=
  mkHost
    (fun c =>
       match c with
       | ScrollbarResize s _ => horizontal s
       | _ => false
       end)
    metrics (fun _ => JsNumber 0) (fun s => JsBool (horizontal s)).

Definition metrics_800_600 : Metrics :=
  mkMetrics (JsNumber 800) (JsNumber 600) (JsNumber 0) (JsNumber 0)
    (JsNumber 1600) (JsNumber 0) (JsNumber 0)
    (JsNumber 1200) (JsNumber 0) (JsNumber 0).

(** The same view with the content scrolled 40 pixels to the left. *)
Definition metrics_scrolled_left : Metrics :=
  mkMetrics (JsNumber 800) (JsNumber 600) (JsNumber 0) (JsNumber 0)
    (JsNumber 1600) (JsNumber 40) (JsNumber 0)
    (JsNumber 1200) (JsNumber 0) (JsNumber 0).

(** The call made for a scrollbar that the pair has. *)
Definition opt_call (s : option Scrollbar) (c : Scrollbar -> Call)
    : list Call :=
  match s with
  | Some s => [c s]
  | None => []
  end.

(** The scrollbars and the pair that the constructor makes when both
    flags are left out. *)
Definition h_bar : Scrollbar :=
  mkScrollbar true (JsBool true) JsUndefined JsUndefined.

Definition v_bar : Scrollbar :=
  mkScrollbar false (JsBool true) JsUndefined JsUndefined.

Definition full_pair : Pair :=
  mkPair true (Some h_bar) (Some v_bar) true None.

End ScrollbarPair.

(** ** Properties *)

(** *** Values *)

Lemma is_undefined_true (v : JsValue) :
  is_undefined v = true <-> v = JsUndefined.
Proof.
  unfold is_undefined.
  destruct v as [[ | | b | x | s] | r p]; simpl; split; intro H;
    try reflexivity; discriminate H.
Qed.

Lemma is_undefined_false (v : JsValue) :
  is_undefined v = false <-> v <> JsUndefined.
Proof.
  split.
  - intros H E. apply is_undefined_true in E. congruence.
  - intro H. destruct (is_undefined v) eqn:E; [ | reflexivity ].
    apply is_undefined_true in E. contradiction.
Qed.

(** A number equals itself unless it is [NaN]. *)
Lemma float_eqb_same (x : float) :
  PrimFloat.eqb x x
  = match Prim2SF x with
    | S754_nan => false
    | _ => true
    end.
Proof.
  rewrite eqb_spec. unfold SFeqb.
  destruct (Prim2SF x) as [s | s | | s m e]; simpl.
  - reflexivity.
  - destruct s; reflexivity.
  - reflexivity.
  - destruct s; rewrite Z.compare_refl, Pos.compare_cont_refl; reflexivity.
Qed.

(** [x == x] holds for every value but [NaN]. *)
Lemma loose_eq_same (x : JsValue) : loose_eq x x = negb (is_NaN x).
Proof.
  destruct x as [[ | | b | x | s] | r p]; simpl.
  - reflexivity.
  - reflexivity.
  - apply Bool.eqb_reflx.
  - rewrite float_eqb_same. now destruct (Prim2SF x).
  - apply String.eqb_refl.
  - apply Nat.eqb_refl.
Qed.

(** The steps of the language's comparison that convert an operand. *)
Lemma loose_eq_boolean_left (b : bool) (y : JsValue) :
  loose_eq (JsBool b) y = loose_eq (JsNumber (bool_to_number b)) y.
Proof.
  destruct y as [[ | | c | x | s] | r [ | | c | x | s]]; simpl;
    try reflexivity; destruct b, c; reflexivity.
Qed.

Lemma loose_eq_number_string (x : float) (s : string) :
  loose_eq (JsNumber x) (JsString s) =
  loose_eq (JsNumber x) (JsNumber (StringToNumber s)).
Proof. reflexivity. Qed.

Lemma loose_eq_object_primitive (r : nat) (p q : Js.Primitive) :
  q <> Js.Undefined -> q <> Js.Null ->
  loose_eq (Js.Object r p) (Js.Prim q) = loose_eq (Js.Prim p) (Js.Prim q).
Proof.
  intros Hu Hn. destruct q; simpl; try reflexivity; contradiction.
Qed.

Example loose_eq_false_empty_string :
  loose_eq (JsBool false) (JsString "") = true
  /\ loose_eq (JsString "1") (JsNumber 1) = true
  /\ loose_eq JsNull JsUndefined = true
  /\ loose_eq JsNull (JsNumber 0) = false
  /\ loose_eq (JsString "0x10") (JsNumber 16) = true
  /\ loose_eq (JsString " 1e3 ") (JsNumber 1000) = true.
Proof. vm_compute. repeat split. Qed.

Lemma truthy_prefix_all (l : list JsValue) :
  forallb ToBoolean l = true -> truthy_prefix l = l.
Proof.
  induction l as [ | id rest IH]; simpl; intro H.
  - reflexivity.
  - apply andb_prop in H. destruct H as [Hid Hrest].
    rewrite Hid. f_equal. now apply IH.
Qed.

Lemma truthy_prefix_app_falsy (pre post : list JsValue) (v : JsValue) :
  ToBoolean v = false ->
  truthy_prefix (pre ++ v :: post) = truthy_prefix pre.
Proof.
  intro Hv. induction pre as [ | id rest IH]; simpl.
  - now rewrite Hv.
  - destruct (ToBoolean id); [ now rewrite IH | reflexivity ].
Qed.

(** One step of a run: the first [bind] is unfolded and, when it binds a
    query, the query is answered from the current document. *)
Ltac run_step := unfold bind at 1; try unfold query at 1; simpl.

Section Properties.

Context {collaborators : Collaborators}.

Local Open Scope run_scope.

(** *** Runs *)

Lemma bind_ret {A B : Type} (a : A) (k : A -> M B) (w : World) :
  (x <- ret a ;; k x) w = k a w.
Proof. reflexivity. Qed.

Lemma ret_bind {A : Type} (c : M A) (w : World) :
  (x <- c ;; ret x) w = c w.
Proof. unfold bind, ret. now destruct (c w). Qed.

Lemma bind_bind {A B C : Type} (c : M A) (k : A -> M B) (h : B -> M C)
    (w : World) :
  (y <- (x <- c ;; k x) ;; h y) w = (x <- c ;; y <- k x ;; h y) w.
Proof. unfold bind. now destruct (c w). Qed.

(** An error ends the run where it is raised. *)
Lemma bind_throw {A B : Type} (e : JsError) (k : A -> M B) (w : World) :
  (x <- throw e ;; k x) w = Thrown e w.
Proof. reflexivity. Qed.

Lemma uncreate_truthy_prefix (root : JsValue) (l : list JsValue) (w : World) :
  uncreate root l w = Normal tt (fold_left (undo_one root) (truthy_prefix l) w).
Proof.
  revert w. induction l as [ | id rest IH]; intro w; simpl.
  - reflexivity.
  - destruct (ToBoolean id); [ | reflexivity ].
    run_step. run_step. unfold undo_one at 2.
    destruct (getBlockById (doc w) id) as [block | ].
    + unfold command. apply IH.
    + destruct (loose_eq id root); [ unfold console_warn | unfold ret ];
        apply IH.
Qed.

(** *** Change events: [isNull] *)

(** C1 (amended).  For every change event, [isNull()] is true exactly when
    [oldValue == newValue] holds under the loose equality of the language.
    A change event constructed from a live block with the same value [x]
    as old and new value has [isNull() == true] for every [x] other than
    [NaN] (booleans, numeric strings, the empty string, [null], an absent
    value, objects), and [isNull() == false] when [x] is [NaN]. *)
Theorem isNull_loose_equality :
  (forall this : BlockChange,
      isNull this = true <-> loose_eq (oldValue this) (newValue this) = true)
  /\ (forall (ambient : JsValue) (d : Document) (block : Block)
        (opt_element opt_name x : JsValue),
        isNull (BlockChange_new ambient d (Some block) opt_element opt_name x x)
        = negb (is_NaN x)).
Proof.
  split.
  - intro this. unfold isNull. tauto.
  - intros ambient d block opt_element opt_name x.
    unfold isNull, BlockChange_new. simpl.
    destruct (String.eqb (js_typeof x) "undefined") eqn:E.
    + apply (is_undefined_true x) in E. subst x. reflexivity.
    + apply loose_eq_same.
Qed.

(** *** Creation events: the backward run *)

(** C2 (amended).  A creation event that has its [ids] sequence, run
    backward, ends normally, and its effect is that of undoing, in order,
    every identifier before the first falsy entry of [ids]: a block that
    the lookup finds is disposed, a missing block whose identifier equals
    the event's [blockId] is reported on the console, any other missing
    block is passed over.  When no entry is falsy these are all the
    identifiers of [ids]. *)
Theorem BlockCreate_run_backward (this : BlockCreate) (l : list JsValue)
    (w : World) :
  ids this = Some l ->
  BlockCreate_run this false w
  = Normal tt
      (fold_left (undo_one (blockId (create_base this))) (truthy_prefix l) w)
  /\ (forallb ToBoolean l = true -> truthy_prefix l = l).
Proof.
  intro Hids. split.
  - unfold BlockCreate_run. rewrite Hids. apply uncreate_truthy_prefix.
  - apply truthy_prefix_all.
Qed.

(** A blank creation event has no [ids] to index: its backward run is cut
    short by the language. *)
Lemma BlockCreate_run_blank (ambient : JsValue) (d : Document) (w : World) :
  BlockCreate_run (BlockCreate_new ambient d None) false w
  = Thrown TypeError w.
Proof. reflexivity. Qed.

(** C9.  The backward run stops at the first falsy entry of [ids]: the
    entries after a falsy one are neither looked up nor disposed, and the
    run is that of the event holding only the entries before it. *)
Theorem BlockCreate_run_stops_at_falsy (this : BlockCreate)
    (pre post : list JsValue) (v : JsValue) (w : World) :
  ids this = Some (pre ++ v :: post)%list ->
  ToBoolean v = false ->
  BlockCreate_run this false w
  = BlockCreate_run (mkBlockCreate (create_base this) (xml this) (Some pre))
      false w.
Proof.
  intros Hids Hv. unfold BlockCreate_run. rewrite Hids. simpl.
  rewrite !uncreate_truthy_prefix.
  now rewrite (truthy_prefix_app_falsy pre post v Hv).
Qed.

(** *** Change events: the run *)

Lemma close_mutator_frame (block : Block) (w : World) :
  console (close_mutator block w) = console w
  /\ fired (close_mutator block w) = fired w
  /\ ambient_group (close_mutator block w) = ambient_group w
  /\ doc (close_mutator block w)
     = (if has_mutator (doc w) block
        then mutator_setVisible block false (doc w) else doc w).
Proof.
  unfold close_mutator. destruct (has_mutator (doc w) block); simpl; auto.
Qed.

(** The run from the mutator check on: the editor is closed, then the rest
    of the run proceeds. *)
Lemma close_mutator_then (w : World) (block : Block) (rest : M unit) :
  (mutator <- query (fun d => has_mutator d block) ;;
   (if mutator then command (mutator_setVisible block false) else ret tt) ;;
   rest) w
  = rest (close_mutator block w).
Proof.
  unfold bind, query, close_mutator. simpl.
  destruct (has_mutator (doc w) block); reflexivity.
Qed.

(** C3.  For every change event and either direction: when the
    lookup finds no block for the event's [blockId], the run logs a
    warning and ends normally, leaving the document and the fired events
    as they were.  For element ['field'], when the block exists and has no
    field of the event's name, the run logs a warning and ends normally;
    no field is set and the run fires nothing, and the one change to the
    document is that the mutator editor of the block, if it has one, has
    been closed. *)
Theorem BlockChange_run_missing_target (this : BlockChange) (forward : bool)
    (w : World) :
  (getBlockById (doc w) (blockId (change_base this)) = None ->
   exists w',
     BlockChange_run this forward w = Normal tt w'
     /\ doc w' = doc w
     /\ fired w' = fired w
     /\ console w'
        = (console w ++
           [mkWarning "Can't change non-existent block: "
              (blockId (change_base this))])%list)
  /\ (forall block : Block,
        getBlockById (doc w) (blockId (change_base this)) = Some block ->
        element this = JsString "field" ->
        getField (doc (close_mutator block w)) block (name this) = None ->
        exists w',
          BlockChange_run this forward w = Normal tt w'
          /\ doc w'
             = (if has_mutator (doc w) block
                then mutator_setVisible block false (doc w) else doc w)
          /\ fired w' = fired w
          /\ console w'
             = (console w ++
                [mkWarning "Can't set non-existent field: " (name this)])%list).
Proof.
  split.
  - intro Hnone.
    exists (warn "Can't change non-existent block: "
              (blockId (change_base this)) w).
    split; [ | now simpl ].
    unfold BlockChange_run, bind, query. simpl. now rewrite Hnone.
  - intros block Hsome Helement Hfield.
    exists (warn "Can't set non-existent field: " (name this)
              (close_mutator block w)).
    destruct (close_mutator_frame block w) as (Hc & Hf & _ & Hd).
    split.
    + unfold BlockChange_run. run_step. rewrite Hsome.
      rewrite close_mutator_then.
      rewrite Helement. simpl.
      unfold bind, query. simpl. now rewrite Hfield.
    + simpl. rewrite Hc, Hf, Hd. auto.
Qed.

Lemma apply_mutation_frame (block : Block) (value : JsValue) (w : World) :
  console (apply_mutation block value w) = console w
  /\ fired (apply_mutation block value w) = fired w
  /\ ambient_group (apply_mutation block value w) = ambient_group w.
Proof.
  unfold apply_mutation. destruct (has_domToMutation (doc w) block); simpl; auto.
Qed.

(** The run of a ['mutation'] change on a block that exists: it throws,
    after the editor has been closed, when the block has a [domToMutation]
    hook and the parser refuses the text; otherwise it applies the value
    and fires the echo. *)
Lemma BlockChange_run_mutation (this : BlockChange) (forward : bool)
    (w : World) (block : Block) :
  getBlockById (doc w) (blockId (change_base this)) = Some block ->
  element this = JsString "mutation" ->
  let value := if forward then newValue this else oldValue this in
  let w1 := close_mutator block w in
  let w2 := apply_mutation block value w1 in
  BlockChange_run this forward w
  = if has_domToMutation (doc w1) block
       && textToDom_throws (js_or value (JsString "<mutation/>"))
    then Thrown ParseError w1
    else
      Normal tt
        (enqueue
           (BlockChange_new (ambient_group w2) (doc w2) (Some block)
              (JsString "mutation") JsNull (captured_mutation block w1) value)
           w2).
Proof.
  intros Hsome Helement value w1 w2.
  unfold BlockChange_run. run_step.
  rewrite Hsome, close_mutator_then, Helement. simpl.
  fold value. fold w1.
  run_step.
  assert (Hcap :
    (if has_mutationToDom (doc w1) block
     then
       (oldMutationDom <- query (fun d => mutationToDom d block) ;;
        ret (js_and oldMutationDom (domToText oldMutationDom)))
     else ret (JsString "")) w1
    = Normal (captured_mutation block w1) w1).
  { unfold captured_mutation.
    destruct (has_mutationToDom (doc w1) block); reflexivity. }
  unfold bind at 1. rewrite Hcap.
  run_step. unfold bind at 1.
  subst w2. unfold apply_mutation.
  destruct (has_domToMutation (doc w1) block); simpl; [ | reflexivity ].
  unfold bind, Xml_textToDom.
  destruct (textToDom_throws (js_or value (JsString "<mutation/>")));
    reflexivity.
Qed.

Lemma BlockChange_new_fields (ambient : JsValue) (d : Document) (block : Block)
    (opt_element opt_name opt_oldValue opt_newValue : JsValue) :
  let e := BlockChange_new ambient d (Some block) opt_element opt_name
             opt_oldValue opt_newValue in
  element e = (if is_undefined opt_element then JsString "" else opt_element)
  /\ name e = (if is_undefined opt_name then JsString "" else opt_name)
  /\ oldValue e
     = (if is_undefined opt_oldValue then JsString "" else opt_oldValue)
  /\ newValue e
     = (if is_undefined opt_newValue then JsString "" else opt_newValue)
  /\ change_base e = BlockBase_new ambient d (Some block).
Proof. simpl. unfold is_undefined. auto. Qed.

(** C4 (amended).  For every change event with element ['mutation'] whose
    target block exists, a single run does one of two things.  When the
    block has a [domToMutation] hook and [Blockly.Xml.textToDom] throws on
    the text to apply (the value, or ['<mutation/>'] when the value is
    falsy), the run throws that error after the mutator editor has been
    closed; no value is applied and the run fires nothing.  Otherwise the
    run ends normally and itself fires exactly one secondary change event.
    Its element is ['mutation'] and its name is [null].  Its [oldValue] is
    the structural state captured immediately before the new value is
    applied: the empty string when the block has no [mutationToDom] hook,
    the text of the element the hook returns when it returns one, and
    otherwise the hook's own falsy result ([null] as [null], [undefined]
    as the empty string).  Its [newValue] is the value being applied (the
    empty string when that value is [undefined]). *)
Theorem BlockChange_run_mutation_echo (this : BlockChange) (forward : bool)
    (w : World) (block : Block) :
  getBlockById (doc w) (blockId (change_base this)) = Some block ->
  element this = JsString "mutation" ->
  let value := if forward then newValue this else oldValue this in
  let w1 := close_mutator block w in
  let captured :=
    if has_mutationToDom (doc w1) block then
      if ToBoolean (mutationToDom (doc w1) block)
      then domToText (mutationToDom (doc w1) block)
      else mutationToDom (doc w1) block
    else JsString "" in
  let refused :=
    has_domToMutation (doc w1) block
    && textToDom_throws (js_or value (JsString "<mutation/>")) in
  (refused = true ->
   BlockChange_run this forward w = Thrown ParseError w1
   /\ fired w1 = fired w
   /\ console w1 = console w)
  /\ (refused = false ->
      exists (echo : BlockChange) (w' : World),
        BlockChange_run this forward w = Normal tt w'
        /\ fired w' = (fired w ++ [echo])%list
        /\ console w' = console w
        /\ doc w' = doc (apply_mutation block value w1)
        /\ element echo = JsString "mutation"
        /\ name echo = JsNull
        /\ oldValue echo
           = (if is_undefined captured then JsString "" else captured)
        /\ newValue echo = (if is_undefined value then JsString "" else value)).
Proof.
  intros Hsome Helement value w1 captured refused.
  pose proof (BlockChange_run_mutation this forward w block Hsome Helement)
    as Hrun.
  cbv zeta in Hrun. fold value in Hrun. fold w1 in Hrun.
  fold refused in Hrun.
  destruct (apply_mutation_frame block value w1) as (Hc2 & Hf2 & _).
  destruct (close_mutator_frame block w) as (Hc1 & Hf1 & _).
  fold w1 in Hc1, Hf1.
  split; intro Hrefused; rewrite Hrefused in Hrun.
  - auto.
  - eexists. eexists. split; [ exact Hrun | ].
    simpl. rewrite Hf2, Hf1, Hc2, Hc1.
    split; [ reflexivity | ].
    unfold is_undefined, captured_mutation, js_and. simpl.
    repeat split; reflexivity.
Qed.

(** C10.  For every change event with element ['mutation'] whose target
    block exists and exposes neither a [mutationToDom] nor a
    [domToMutation] hook, the run still fires the secondary change event;
    no structural state is applied (the document is the one left by
    closing the mutator editor, if any), and the [oldValue] of the echo is
    the empty string. *)
Theorem BlockChange_run_mutation_without_hooks (this : BlockChange)
    (forward : bool) (w : World) (block : Block) :
  getBlockById (doc w) (blockId (change_base this)) = Some block ->
  element this = JsString "mutation" ->
  has_mutationToDom (doc (close_mutator block w)) block = false ->
  has_domToMutation (doc (close_mutator block w)) block = false ->
  exists (echo : BlockChange) (w' : World),
    BlockChange_run this forward w = Normal tt w'
    /\ fired w' = (fired w ++ [echo])%list
    /\ doc w' = doc (close_mutator block w)
    /\ console w' = console w
    /\ element echo = JsString "mutation"
    /\ oldValue echo = JsString "".
Proof.
  intros Hsome Helement Hto Hfrom.
  pose proof (BlockChange_run_mutation this forward w block Hsome Helement)
    as Hrun.
  cbv zeta in Hrun.
  unfold apply_mutation in Hrun. rewrite Hfrom in Hrun.
  unfold captured_mutation in Hrun. rewrite Hto in Hrun.
  simpl in Hrun.
  destruct (close_mutator_frame block w) as (Hc1 & Hf1 & _).
  eexists. eexists. split; [ exact Hrun | ].
  simpl. rewrite Hf1, Hc1. auto.
Qed.

(** *** Change events: construction and the JSON form *)

Lemma stored_as_normalized (parameter : JsValue) :
  stored_as parameter
    (if String.eqb (js_typeof parameter) "undefined"
     then JsString "" else parameter).
Proof.
  destruct (String.eqb (js_typeof parameter) "undefined") eqn:E.
  - apply (is_undefined_true parameter) in E. subst parameter.
    repeat split; [ congruence | discriminate ].
  - apply (is_undefined_false parameter) in E.
    repeat split; [ intro; contradiction | exact E ].
Qed.

(** C8.  A change event constructed from a live block stores each of its
    four descriptive parameters (element, name, oldValue, newValue) as the
    empty string when the parameter is absent ([undefined]), never as
    [null] or [undefined], and verbatim when it is present. *)
Theorem BlockChange_new_stores_parameters (ambient : JsValue) (d : Document)
    (block : Block) (opt_element opt_name opt_oldValue opt_newValue : JsValue) :
  let this := BlockChange_new ambient d (Some block) opt_element opt_name
                opt_oldValue opt_newValue in
  stored_as opt_element (element this)
  /\ stored_as opt_name (name this)
  /\ stored_as opt_oldValue (oldValue this)
  /\ stored_as opt_newValue (newValue this).
Proof.
  simpl. repeat split; apply stored_as_normalized.
Qed.

(** C5 (amended).  Serializing a change event omits the ['name'] key
    exactly when the name is falsy.  Deserializing copies [element],
    [oldValue] and [newValue] from the record and sets [name] to the
    recorded name, which is [undefined] (not a string) when the key was
    omitted.  Serializing and then deserializing therefore reproduces
    [element], [oldValue], [newValue] and a truthy [name]; a falsy name
    (the empty string, [null]) comes back as [undefined], which is falsy
    as well, so that the result serializes to the same descriptive keys. *)
Theorem BlockChange_json_round_trip (this blank : BlockChange) :
  let json := BlockChange_toJson this in
  let back := BlockChange_fromJson blank json in
  (json_name json = None <-> ToBoolean (name this) = false)
  /\ element back = element this
  /\ oldValue back = oldValue this
  /\ newValue back = newValue this
  /\ name back = (if ToBoolean (name this) then name this else JsUndefined)
  /\ ToBoolean (name back) = ToBoolean (name this)
  /\ json_element (BlockChange_toJson back) = json_element json
  /\ json_name (BlockChange_toJson back) = json_name json
  /\ json_oldValue (BlockChange_toJson back) = json_oldValue json
  /\ json_newValue (BlockChange_toJson back) = json_newValue json.
Proof.
  simpl. destruct (ToBoolean (name this)) eqn:Hname; simpl.
  - rewrite Hname. repeat split; try reflexivity; discriminate.
  - repeat split; reflexivity.
Qed.

(** *** Creation events: construction and the JSON form *)

(** C6.  A creation event constructed from a live block has
    [recordUndo = false] when the block is a shadow block, and otherwise
    keeps the value the base constructor gave it, the default [true]. *)
Theorem BlockCreate_new_recordUndo (ambient : JsValue) (d : Document)
    (block : Block) :
  recordUndo (create_base (BlockCreate_new ambient d (Some block)))
  = (if isShadow d block then JsBool false
     else recordUndo (BlockBase_new ambient d (Some block)))
  /\ recordUndo (BlockBase_new ambient d (Some block)) = JsBool true.
Proof.
  split; [ | reflexivity ].
  unfold BlockCreate_new.
  destruct (isShadow d block), (workspace_rendered d block); reflexivity.
Qed.

Lemma strict_eq_undefined (v : JsValue) :
  strict_eq v JsUndefined = is_undefined v.
Proof. destruct v as [[ | | b | x | s] | r p]; reflexivity. Qed.


End Properties.

(** *** The properties on the reference document *)

Import Reference.

(** C1, counterexample.  A change event constructed with [NaN] as both old
    and new value is not null: [NaN == NaN] is false. *)
Lemma isNull_NaN_counterexample :
  oldValue Scenario.change_NaN = JsNumber nan
  /\ newValue Scenario.change_NaN = JsNumber nan
  /\ is_NaN (JsNumber nan) = true
  /\ isNull Scenario.change_NaN = false.
Proof. repeat split. Qed.

(** C2, counterexample.  [b1] is an identifier of the event's [ids] and the
    lookup finds its block, yet the backward run disposes nothing: the
    empty identifier in front of it ends the loop. *)
Lemma BlockCreate_run_backward_counterexample :
  ids Scenario.created_after_gap = Some [JsString ""; JsString "b1"]
  /\ getBlockById Reference.document (JsString "b1") = Some "b1"
  /\ Scenario.blocks_after (Normal tt Reference.world) = ["b1"; "b2"; "b3"]
  /\ BlockCreate_run Scenario.created_after_gap false Reference.world
     = Normal tt Reference.world
  /\ Scenario.blocks_after
       (Normal tt (with_doc (dispose "b1" false) Reference.world))
     = ["b3"].
Proof. repeat split. Qed.

(** C2, witness: undoing the creation of [b1] disposes [b1] and, with it,
    [b2]; the lookup of [b2] then fails and is passed over. *)
Lemma BlockCreate_run_backward_witness :
  ids Scenario.created = Some [JsString "b1"; JsString "b2"]
  /\ Scenario.blocks_after
       (BlockCreate_run Scenario.created false Reference.world)
     = ["b3"]
  /\ truthy_prefix [JsString "b1"; JsString "b2"]
     = [JsString "b1"; JsString "b2"].
Proof.
  destruct (BlockCreate_run_backward Scenario.created
              [JsString "b1"; JsString "b2"] Reference.world eq_refl)
    as [Hrun Hall].
  split; [ reflexivity | ]. split.
  - rewrite Hrun. reflexivity.
  - apply Hall. reflexivity.
Defined.

(** C9, witness: with an empty identifier between [b2] and [b1], only [b2]
    is disposed. *)
Lemma BlockCreate_run_stops_at_falsy_witness :
  ToBoolean (JsString "") = false
  /\ BlockCreate_run Scenario.created_with_gap false Reference.world
     = BlockCreate_run
         (mkBlockCreate (create_base Scenario.created_with_gap)
            (xml Scenario.created_with_gap) (Some [JsString "b2"]))
         false Reference.world
  /\ Scenario.blocks_after
       (BlockCreate_run Scenario.created_with_gap false Reference.world)
     = ["b1"; "b3"].
Proof.
  split; [ reflexivity | ]. split.
  - apply (BlockCreate_run_stops_at_falsy Scenario.created_with_gap
             [JsString "b2"] [JsString "b1"] (JsString ""));
      reflexivity.
  - reflexivity.
Defined.

(** C3, witness: a change of the missing block [b9] only logs a warning; a
    change of the missing field [TEXT] of [b1] logs a warning and closes
    the editor of [b1]. *)
Lemma BlockChange_run_missing_target_witness :
  (exists w',
      BlockChange_run Scenario.change_missing_block true world = Normal tt w'
      /\ doc w' = document
      /\ fired w' = []
      /\ console w'
         = [mkWarning "Can't change non-existent block: " (JsString "b9")])
  /\ (exists w',
        BlockChange_run Scenario.change_missing_field false world
        = Normal tt w'
        /\ doc w' = mutator_setVisible "b1" false document
        /\ fired w' = []
        /\ console w'
           = [mkWarning "Can't set non-existent field: " (JsString "TEXT")]).
Proof.
  split.
  - apply (proj1 (BlockChange_run_missing_target
                    Scenario.change_missing_block true world)).
    reflexivity.
  - apply (proj2 (BlockChange_run_missing_target
                    Scenario.change_missing_field false world) "b1");
      reflexivity.
Defined.

(** C4, counterexample.  [b1] supports structural serialization (it has a
    [mutationToDom] hook), the hook reports no mutation, and the
    [oldValue] of the echo is [null]: neither a text nor empty.  And when
    the text to apply does not parse, the run of the mutation of [b1]
    throws and fires no event at all. *)
Lemma BlockChange_run_mutation_echo_counterexample :
  has_mutationToDom Mutated.document "b1" = true
  /\ mutationToDom Mutated.document "b1" = JsNull
  /\ textToDom_throws (JsString "<mutation items='3'/>") = false
  /\ map oldValue
       (Scenario.fired_by
          (BlockChange_run Mutated.reshape_parent true Mutated.world))
     = [JsNull]
  /\ textToDom_throws (JsString "<mutation items=3/>") = true
  /\ BlockChange_run Scenario.change_mutation true world
     = Thrown ParseError (close_mutator "b1" world)
  /\ fired (close_mutator "b1" world) = [].
Proof. repeat split. Qed.

(** C4, witness: the mutation of [m1] fires one echo, from the text of its
    two items to the text of three; the mutation of [b1], whose hook
    reports no mutation, fires one echo from [null]; and the mutation of
    [b1] to a text that does not parse throws once the editor of [b1] has
    been closed, and fires nothing. *)
Lemma BlockChange_run_mutation_echo_witness :
  (exists (echo : BlockChange) (w' : World),
      BlockChange_run Mutated.reshape true Mutated.world = Normal tt w'
      /\ fired w' = [echo]
      /\ console w' = []
      /\ doc w'
         = domToMutation "m1" (Reference.parsed_node "<mutation items='3'/>")
             Mutated.document
      /\ element echo = JsString "mutation"
      /\ name echo = JsNull
      /\ oldValue echo = JsString "<mutation items='2'/>"
      /\ newValue echo = JsString "<mutation items='3'/>")
  /\ (exists (echo : BlockChange) (w' : World),
        BlockChange_run Mutated.reshape_parent true Mutated.world
        = Normal tt w'
        /\ fired w' = [echo]
        /\ console w' = []
        /\ doc w'
           = domToMutation "b1"
               (Reference.parsed_node "<mutation items='3'/>")
               (mutator_setVisible "b1" false Mutated.document)
        /\ element echo = JsString "mutation"
        /\ name echo = JsNull
        /\ oldValue echo = JsNull
        /\ newValue echo = JsString "<mutation items='3'/>")
  /\ (BlockChange_run Scenario.change_mutation true world
      = Thrown ParseError (close_mutator "b1" world)
      /\ fired (close_mutator "b1" world) = []
      /\ console (close_mutator "b1" world) = []).
Proof.
  split; [ | split ].
  - apply (proj2 (BlockChange_run_mutation_echo Mutated.reshape true
                    Mutated.world "m1" eq_refl eq_refl)).
    reflexivity.
  - apply (proj2 (BlockChange_run_mutation_echo Mutated.reshape_parent true
                    Mutated.world "b1" eq_refl eq_refl)).
    reflexivity.
  - apply (proj1 (BlockChange_run_mutation_echo Scenario.change_mutation true
                    world "b1" eq_refl eq_refl)).
    reflexivity.
Defined.

(** C10, witness: [b3] has no mutation hooks; the echo is fired all the
    same, from the empty string, and the document is left as it was. *)
Lemma BlockChange_run_mutation_without_hooks_witness :
  exists (echo : BlockChange) (w' : World),
    BlockChange_run Scenario.change_mutation_plain true world = Normal tt w'
    /\ fired w' = [echo]
    /\ doc w' = document
    /\ console w' = []
    /\ element echo = JsString "mutation"
    /\ oldValue echo = JsString "".
Proof.
  apply (BlockChange_run_mutation_without_hooks Scenario.change_mutation_plain
           true world "b3"); reflexivity.
Defined.

(** C5, counterexample.  The comment change was constructed without a
    name, so its name is the empty string; serialized and deserialized, its
    name is [undefined], which is not a string. *)
Lemma BlockChange_json_round_trip_counterexample :
  name Scenario.change_comment = JsString ""
  /\ json_name (BlockChange_toJson Scenario.change_comment) = None
  /\ name (BlockChange_fromJson Scenario.blank_change
             (BlockChange_toJson Scenario.change_comment))
     = JsUndefined
  /\ js_typeof
       (name (BlockChange_fromJson Scenario.blank_change
                (BlockChange_toJson Scenario.change_comment)))
     = "undefined".
Proof. repeat split. Qed.


(** ** Further properties of the events *)

Lemma strict_eq_string (v : JsValue) (s : string) :
  strict_eq v (JsString s) = true -> v = JsString s.
Proof.
  destruct v as [[ | | b | x | t] | r p]; simpl; try discriminate.
  intro H. apply String.eqb_eq in H. now subst.
Qed.

Lemma is_known_element_false (v : JsValue) :
  is_known_element v = false ->
  strict_eq v (JsString "field") = false
  /\ strict_eq v (JsString "comment") = false
  /\ strict_eq v (JsString "collapsed") = false
  /\ strict_eq v (JsString "disabled") = false
  /\ strict_eq v (JsString "inline") = false
  /\ strict_eq v (JsString "mutation") = false.
Proof.
  unfold is_known_element, known_elements. simpl. intro H.
  repeat (apply Bool.orb_false_elim in H; destruct H as [? H]).
  auto 10.
Qed.

(** [==] is symmetric. *)
Lemma SFeqb_sym (x y : spec_float) : SFeqb x y = SFeqb y x.
Proof.
  unfold SFeqb.
  destruct x as [s | s | | s m e], y as [s' | s' | | s' m' e']; simpl;
    try reflexivity.
  - now destruct s'.
  - now destruct s'.
  - now destruct s.
  - now destruct s, s'.
  - now destruct s, s'.
  - now destruct s.
  - now destruct s, s'.
  - assert (Hm : PosDef.Pos.compare_cont Eq m' m
                 = CompOpp (PosDef.Pos.compare_cont Eq m m'))
      by (symmetry; apply (Pos.compare_cont_antisym m m' Eq)).
    rewrite Hm, (Z.compare_antisym e e').
    destruct s, s'; try reflexivity;
      destruct (e ?= e')%Z; simpl; try reflexivity;
      destruct (Pos.compare_cont Eq m m'); reflexivity.
Qed.

Lemma prim_loose_eq_sym (p q : Js.Primitive) :
  prim_loose_eq p q = prim_loose_eq q p.
Proof.
  destruct p as [ | | a | x | s], q as [ | | b | y | t]; simpl;
    try reflexivity;
    try (rewrite !eqb_spec; apply SFeqb_sym).
  - now destruct a, b.
  - apply String.eqb_sym.
Qed.

Lemma loose_eq_sym (x y : JsValue) : loose_eq x y = loose_eq y x.
Proof.
  destruct x as [p | r p], y as [q | r' q]; simpl.
  - apply prim_loose_eq_sym.
  - destruct p; try reflexivity; apply prim_loose_eq_sym.
  - destruct q; try reflexivity; apply prim_loose_eq_sym.
  - apply Nat.eqb_sym.
Qed.

Lemma truthy_prefix_truthy (l : list JsValue) :
  Forall (fun id => ToBoolean id = true /\ In id l) (truthy_prefix l).
Proof.
  induction l as [ | id rest IH]; simpl.
  - constructor.
  - destruct (ToBoolean id) eqn:Hid; constructor.
    + auto.
    + eapply Forall_impl; [ | exact IH ]. simpl. intros a [Ha Hin]. auto.
Qed.

Section MoreProperties.

Context {collaborators : Collaborators}.

Local Open Scope run_scope.

(** The run of a change event on a block that exists, after the lookup and
    the mutator check. *)
Ltac found_block Hsome :=
  unfold BlockChange_run; run_step; rewrite Hsome;
  rewrite close_mutator_then.

(** X2.  For a block that exists, a ['collapsed'] or ['inline'] change
    calls the setter of the flag with the truthiness of the value, and a
    ['disabled'] change calls [setEnabled] with its negation, on the
    document in which the mutator editor has been closed. *)
Theorem BlockChange_run_flags (this : BlockChange) (forward : bool) (w : World)
    (block : Block) :
  getBlockById (doc w) (blockId (change_base this)) = Some block ->
  let value := if forward then newValue this else oldValue this in
  let d1 := doc (close_mutator block w) in
  (element this = JsString "collapsed" ->
   exists w' : World,
     BlockChange_run this forward w = Normal tt w'
     /\ doc w' = setCollapsed block (ToBoolean value) d1)
  /\ (element this = JsString "disabled" ->
      exists w' : World,
        BlockChange_run this forward w = Normal tt w'
        /\ doc w' = setEnabled block (negb (ToBoolean value)) d1)
  /\ (element this = JsString "inline" ->
      exists w' : World,
        BlockChange_run this forward w = Normal tt w'
        /\ doc w' = setInputsInline block (ToBoolean value) d1).
Proof.
  intros Hsome value d1.
  repeat split; intro Helement; eexists;
    (split; [ found_block Hsome; rewrite Helement; reflexivity
            | reflexivity ]).
Qed.

(** X3.  For a block that exists, a ['comment'] change sets the comment
    text to the value when the value is truthy and to [null] when it is
    falsy (the empty string, [undefined], [false], [0]). *)
Theorem BlockChange_run_comment (this : BlockChange) (forward : bool)
    (w : World) (block : Block) :
  getBlockById (doc w) (blockId (change_base this)) = Some block ->
  element this = JsString "comment" ->
  let value := if forward then newValue this else oldValue this in
  BlockChange_run this forward w
  = Normal tt
      (with_doc
         (setCommentText block (if ToBoolean value then value else JsNull))
         (close_mutator block w)).
Proof.
  intros Hsome Helement value.
  found_block Hsome. rewrite Helement. reflexivity.
Qed.

(** X4.  For a block that exists and has the named field, a ['field']
    change calls [setValue] of that field with the value as it is,
    whatever its type ([newValue] forward, [oldValue] backward), on the
    document in which the mutator editor has been closed. *)
Theorem BlockChange_run_field (this : BlockChange) (forward : bool)
    (w : World) (block : Block) (field : Field) :
  getBlockById (doc w) (blockId (change_base this)) = Some block ->
  element this = JsString "field" ->
  getField (doc (close_mutator block w)) block (name this) = Some field ->
  exists w' : World,
    BlockChange_run this forward w = Normal tt w'
    /\ doc w'
       = setValue field (if forward then newValue this else oldValue this)
           (doc (close_mutator block w)).
Proof.
  intros Hsome Helement Hfield.
  eexists. split.
  - found_block Hsome. rewrite Helement. simpl.
    run_step. rewrite Hfield. reflexivity.
  - reflexivity.
Qed.

(** X5.  For a block that exists, a change whose element is none of the
    six known ones (compared with [===]: another spelling, a value that is
    not a string, an unset element) only logs 'Unknown change type' with
    the element; apart from closing the mutator editor the document is
    left alone. *)
Theorem BlockChange_run_unknown_element (this : BlockChange) (forward : bool)
    (w : World) (block : Block) :
  getBlockById (doc w) (blockId (change_base this)) = Some block ->
  is_known_element (element this) = false ->
  BlockChange_run this forward w
  = Normal tt
      (warn "Unknown change type: " (element this) (close_mutator block w)).
Proof.
  intros Hsome Hunknown.
  apply is_known_element_false in Hunknown.
  destruct Hunknown as (H1 & H2 & H3 & H4 & H5 & H6).
  found_block Hsome. now rewrite H1, H2, H3, H4, H5, H6.
Qed.

(** X6.  An event is null exactly when the event that swaps its old and
    new value is: [==] is symmetric. *)
Theorem isNull_swap (base : BlockBase) (element name x y : JsValue) :
  isNull (mkBlockChange base element name x y)
  = isNull (mkBlockChange base element name y x).
Proof. unfold isNull. simpl. apply loose_eq_sym. Qed.

(** X7.  Deserializing a record and serializing the result gives back the
    descriptive keys of the record, except that a ['name'] key holding a
    falsy value is dropped. *)
Theorem BlockChange_json_decode_encode (this : BlockChange) (json : ChangeJson) :
  let again := BlockChange_toJson (BlockChange_fromJson this json) in
  json_element again = json_element json
  /\ json_oldValue again = json_oldValue json
  /\ json_newValue again = json_newValue json
  /\ json_name again
     = match json_name json with
       | Some v => if ToBoolean v then Some v else None
       | None => None
       end.
Proof.
  simpl. repeat split.
  destruct (json_name json) as [v | ]; reflexivity.
Qed.

End MoreProperties.

(** *** Disposal in the reference document *)

Lemma find_filter_none {A : Type} (p q : A -> bool) (l : list A) :
  find p l = None -> find p (filter q l) = None.
Proof.
  induction l as [ | a l IH]; simpl; [ reflexivity | ].
  destruct (p a) eqn:Hp; [ discriminate | ].
  intro H. destruct (q a); simpl; [ rewrite Hp | ]; auto.
Qed.

Lemma find_filter_excluded {A : Type} (p q : A -> bool) (l : list A) :
  (forall a, p a = true -> q a = false) -> find p (filter q l) = None.
Proof.
  intro H. induction l as [ | a l IH]; simpl; [ reflexivity | ].
  destruct (q a) eqn:Hq; [ | exact IH ].
  simpl. destruct (p a) eqn:Hp; [ | exact IH ].
  apply H in Hp. congruence.
Qed.

Lemma simple_getBlockById_some (d : Reference.SimpleDocument) (id : JsValue)
    (b : string) :
  Reference.simple_getBlockById d id = Some b -> id = JsString b.
Proof.
  destruct id as [[ | | c | x | s] | r p]; simpl; try discriminate.
  destruct (Reference.is_some (Reference.find_block d s)); [ | discriminate ].
  congruence.
Qed.

Lemma simple_dispose_removes (d : Reference.SimpleDocument) (id : JsValue)
    (b : string) (healStack : bool) :
  Reference.simple_getBlockById d id = Some b ->
  Reference.simple_getBlockById (Reference.simple_dispose b healStack d) id
  = None.
Proof.
  intro H. apply simple_getBlockById_some in H. subst id. simpl.
  unfold Reference.find_block, Reference.simple_dispose. simpl.
  rewrite find_filter_excluded; [ reflexivity | ].
  intros a Ha. now rewrite Ha.
Qed.

Lemma simple_dispose_adds_nothing (d : Reference.SimpleDocument)
    (id : JsValue) (b : string) (healStack : bool) :
  Reference.simple_getBlockById d id = None ->
  Reference.simple_getBlockById (Reference.simple_dispose b healStack d) id
  = None.
Proof.
  destruct id as [[ | | c | x | s] | r p]; simpl; try reflexivity.
  unfold Reference.find_block, Reference.simple_dispose. simpl.
  destruct (find (fun b0 => (Reference.sb_id b0 =? s)%string)
              (Reference.sd_blocks d)) eqn:Hfind; simpl; [ discriminate | ].
  intros _. now rewrite find_filter_none.
Qed.

Section MoreCreation.

Context {collaborators : Collaborators}.

Local Open Scope run_scope.

Lemma undo_one_frame (root : JsValue) (w : World) (id : JsValue) :
  fired (undo_one root w id) = fired w
  /\ ambient_group (undo_one root w id) = ambient_group w
  /\ (console (undo_one root w id) = console w
      \/ (loose_eq id root = true
          /\ console (undo_one root w id)
             = (console w
                ++ [mkWarning "Can't uncreate non-existent block: " id])%list)).
Proof.
  unfold undo_one.
  destruct (getBlockById (doc w) id); [ simpl; auto | ].
  destruct (loose_eq id root); simpl; auto.
Qed.

Lemma fold_undo_frame (root : JsValue) (l : list JsValue) (w : World) :
  let w' := fold_left (undo_one root) l w in
  fired w' = fired w
  /\ ambient_group w' = ambient_group w
  /\ exists added : list Warning,
       console w' = (console w ++ added)%list
       /\ Forall
            (fun m =>
               warn_text m = "Can't uncreate non-existent block: "
               /\ In (warn_arg m) l
               /\ loose_eq (warn_arg m) root = true)
            added
       /\ length added <= length l.
Proof.
  revert w. induction l as [ | id rest IH]; intro w; simpl.
  - repeat split. exists []. rewrite app_nil_r. auto.
  - destruct (IH (undo_one root w id)) as (Hf & Ha & added & Hc & Hall & Hlen).
    destruct (undo_one_frame root w id) as (Hf1 & Ha1 & Hc1).
    split; [ congruence | ]. split; [ congruence | ].
    assert (Hrest :
      Forall
        (fun m =>
           warn_text m = "Can't uncreate non-existent block: "
           /\ In (warn_arg m) (id :: rest)
           /\ loose_eq (warn_arg m) root = true)
        added).
    { eapply Forall_impl; [ | exact Hall ]. simpl.
      intros m (Ht & Hin & Heq). auto. }
    destruct Hc1 as [Hsame | [Hroot Hwarn]].
    + exists added. rewrite Hc, Hsame. repeat split; auto.
    + exists (mkWarning "Can't uncreate non-existent block: " id :: added).
      rewrite Hc, Hwarn, <- app_assoc. simpl.
      repeat split; [ | simpl; lia ].
      constructor; [ simpl; auto | exact Hrest ].
Qed.

(** X8.  The backward run of a creation event that has its [ids] ends
    normally; every warning that the run logs is the one about a missing
    root: its identifier is a truthy entry of [ids] that equals ([==]) the
    event's [blockId]; and the run logs at most one warning per entry. *)
Theorem BlockCreate_run_backward_console (this : BlockCreate)
    (l : list JsValue) (w : World) :
  ids this = Some l ->
  exists (w' : World) (added : list Warning),
    BlockCreate_run this false w = Normal tt w'
    /\ console w' = (console w ++ added)%list
    /\ Forall (uncreate_warning (blockId (create_base this)) l) added
    /\ length added <= length l.
Proof.
  intro Hids.
  destruct (fold_undo_frame (blockId (create_base this)) (truthy_prefix l) w)
    as (Hf & Ha & added & Hc & Hall & Hlen).
  exists (fold_left (undo_one (blockId (create_base this)))
            (truthy_prefix l) w), added.
  split.
  { unfold BlockCreate_run. rewrite Hids. apply uncreate_truthy_prefix. }
  repeat split; auto.
  - pose proof (truthy_prefix_truthy l) as Htruthy.
    rewrite Forall_forall in Htruthy.
    eapply Forall_impl; [ | exact Hall ]. simpl.
    intros m (Ht & Hin & Heq).
    destruct (Htruthy _ Hin) as [Hb Hl].
    unfold uncreate_warning. auto.
  - assert (length (truthy_prefix l) <= length l).
    { clear. induction l as [ | id rest IH]; simpl; [ lia | ].
      destruct (ToBoolean id); simpl; lia. }
    lia.
Qed.

Lemma fold_undo_absent (root : JsValue) (l : list JsValue) (w : World)
    (id : JsValue) :
  (forall d id' b h,
      getBlockById d id' = None -> getBlockById (dispose b h d) id' = None) ->
  getBlockById (doc w) id = None ->
  getBlockById (doc (fold_left (undo_one root) l w)) id = None.
Proof.
  intros Hkeep. revert w.
  induction l as [ | id' rest IH]; intros w Hnone; simpl; [ exact Hnone | ].
  apply IH. unfold undo_one.
  destruct (getBlockById (doc w) id') as [b | ]; simpl.
  - now apply Hkeep.
  - destruct (loose_eq id' root); exact Hnone.
Qed.

(** X9.  Undoing a creation leaves none of the visited blocks behind.
    Provided that disposing a block removes the block that the lookup
    found and brings no block back, after the backward run the lookup
    fails for every identifier of [ids] before the first falsy entry. *)
Theorem BlockCreate_run_backward_removes (this : BlockCreate)
    (l : list JsValue) (w : World) :
  (forall d id b h,
      getBlockById d id = Some b -> getBlockById (dispose b h d) id = None) ->
  (forall d id b h,
      getBlockById d id = None -> getBlockById (dispose b h d) id = None) ->
  ids this = Some l ->
  exists w' : World,
    BlockCreate_run this false w = Normal tt w'
    /\ Forall (fun id => getBlockById (doc w') id = None) (truthy_prefix l).
Proof.
  intros Hremove Hkeep Hids.
  eexists. split.
  { unfold BlockCreate_run. rewrite Hids. apply uncreate_truthy_prefix. }
  generalize (truthy_prefix l) as p. clear Hids l.
  intro p. revert w. induction p as [ | id rest IH]; intro w; simpl.
  - constructor.
  - constructor; [ | apply IH ].
    apply fold_undo_absent; [ exact Hkeep | ].
    unfold undo_one.
    destruct (getBlockById (doc w) id) as [b | ] eqn:Hfound; simpl.
    + now apply Hremove.
    + destruct (loose_eq id (blockId (create_base this))); exact Hfound.
Qed.

(** X10.  A creation event constructed from a live block always has its
    [ids], so its backward run ends normally: it undoes, in order, the
    descendant identifiers of the block before the first falsy one.  A
    blank event has neither [ids] nor [xml]: its backward run and its
    forward run both throw a [TypeError], and leave the document alone. *)
Theorem BlockCreate_new_run (ambient : JsValue) (d : Document) (block : Block)
    (w : World) :
  let this := BlockCreate_new ambient d (Some block) in
  let blank := BlockCreate_new ambient d None in
  BlockCreate_run this false w
  = Normal tt
      (fold_left (undo_one (blockId (create_base this)))
         (truthy_prefix (getDescendantIds d block)) w)
  /\ xml this
     = (if workspace_rendered d block then blockToDomWithXY d block
        else blockToDom d block)
  /\ BlockCreate_run blank false w = Thrown TypeError w
  /\ BlockCreate_run blank true w = Thrown TypeError w.
Proof.
  intros this blank. repeat split.
  - unfold BlockCreate_run.
    assert (Hids : ids this = Some (getDescendantIds d block)).
    { subst this. unfold BlockCreate_new.
      destruct (isShadow d block), (workspace_rendered d block); reflexivity. }
    rewrite Hids. apply uncreate_truthy_prefix.
  - subst this. unfold BlockCreate_new.
    destruct (isShadow d block), (workspace_rendered d block); reflexivity.
Qed.

End MoreCreation.

(** *** The further properties on the reference document *)

(** X2, witness: collapsing [b1] collapses it; a ['disabled'] change whose
    value is the text [false], which is truthy, disables it; the inline
    change sets the flag. *)
Lemma BlockChange_run_flags_witness :
  option_map sb_collapsed
    (Replay.block_of (BlockChange_run Replay.collapse true world) "b1")
  = Some true
  /\ option_map sb_enabled
       (Replay.block_of (BlockChange_run Replay.disable_by_text true world)
          "b1")
     = Some false
  /\ option_map sb_inline
       (Replay.block_of (BlockChange_run Replay.inline true world) "b1")
     = Some true.
Proof.
  destruct (BlockChange_run_flags (collaborators := simple)
              Replay.collapse true world "b1" eq_refl) as (Hc & _ & _).
  destruct (BlockChange_run_flags (collaborators := simple)
              Replay.disable_by_text true world "b1" eq_refl) as (_ & Hd & _).
  destruct (BlockChange_run_flags (collaborators := simple)
              Replay.inline true world "b1" eq_refl) as (_ & _ & Hi).
  destruct (Hc eq_refl) as (wc & Hrc & Hdc).
  destruct (Hd eq_refl) as (wd & Hrd & Hdd).
  destruct (Hi eq_refl) as (wi & Hri & Hdi).
  rewrite Hrc, Hrd, Hri. unfold Replay.block_of.
  rewrite Hdc, Hdd, Hdi.
  repeat split.
Defined.

(** X3, witness: run forward the comment change sets the text; run backward,
    to the empty string, it clears the comment. *)
Lemma BlockChange_run_comment_witness :
  option_map sb_comment
    (Replay.block_of (BlockChange_run Replay.comment true world) "b1")
  = Some (JsString "hello")
  /\ option_map sb_comment
       (Replay.block_of (BlockChange_run Replay.comment false world) "b1")
     = Some JsNull.
Proof.
  rewrite (BlockChange_run_comment (collaborators := simple)
             Replay.comment true world "b1" eq_refl eq_refl).
  rewrite (BlockChange_run_comment (collaborators := simple)
             Replay.comment false world "b1" eq_refl eq_refl).
  split; reflexivity.
Defined.

(** X4, witness: the field [NUM] of [b1] takes the new value. *)
Lemma BlockChange_run_field_witness :
  option_map sb_fields
    (Replay.block_of (BlockChange_run Replay.field_NUM true world) "b1")
  = Some [("NUM", JsString "2")].
Proof.
  destruct (BlockChange_run_field (collaborators := simple)
              Replay.field_NUM true world "b1" ("b1", "NUM")
              eq_refl eq_refl eq_refl) as (w' & Hrun & Hdoc).
  rewrite Hrun. unfold Replay.block_of. rewrite Hdoc.
  reflexivity.
Defined.

(** X5, witness: the element [FIELD] is not the element [field]. *)
Lemma BlockChange_run_unknown_element_witness :
  is_known_element (element Replay.unknown) = false
  /\ BlockChange_run Replay.unknown true world
     = Normal tt
         (mkWorld (mutator_setVisible "b1" false document)
            [mkWarning "Unknown change type: " (JsString "FIELD")] []
            (JsString "")).
Proof.
  split; [ reflexivity | ].
  rewrite (BlockChange_run_unknown_element (collaborators := simple)
             Replay.unknown true world "b1" eq_refl eq_refl).
  reflexivity.
Defined.

(** X8, witness: with the root named twice in [ids], the second visit
    finds it gone and logs the warning once. *)
Lemma BlockCreate_run_backward_console_witness :
  ids Replay.created_twice
  = Some [JsString "b1"; JsString "b2"; JsString "b1"]
  /\ exists (w' : World) (added : list Warning),
       BlockCreate_run Replay.created_twice false world = Normal tt w'
       /\ console w' = added
       /\ Forall
            (uncreate_warning (JsString "b1")
               [JsString "b1"; JsString "b2"; JsString "b1"])
            added
       /\ length added <= 3.
Proof.
  split; [ reflexivity | ].
  apply (BlockCreate_run_backward_console (collaborators := simple)
           Replay.created_twice
           [JsString "b1"; JsString "b2"; JsString "b1"] world eq_refl).
Defined.

(** X9, witness: after undoing the creation of [b1], neither [b1] nor [b2]
    is found. *)
Lemma BlockCreate_run_backward_removes_witness :
  exists w' : World,
    BlockCreate_run Scenario.created false world = Normal tt w'
    /\ Forall (fun id => getBlockById (doc w') id = None)
         [JsString "b1"; JsString "b2"].
Proof.
  apply (BlockCreate_run_backward_removes (collaborators := simple)
           Scenario.created [JsString "b1"; JsString "b2"] world).
  - intros d id b h. apply simple_dispose_removes.
  - intros d id b h. apply simple_dispose_adds_nothing.
  - reflexivity.
Defined.

(** ** Properties of the scrollbar pair *)

Module ScrollbarPairFacts.

Import ScrollbarPair.

Local Open Scope pair_scope.

(** One step of a method: the definitions of the method and of the
    sequencing are unfolded, and the next test (on what a collaborator
    does, or on a property of the pair) is decided both ways. *)
Ltac unfold_methods :=
  cbv beta iota zeta delta
    [new_ScrollbarPair dispose resize set setX setY setOrigin
     setContainerVisible isVisible resizeContent resizeView
     bind ret throw read write call workspace_call corner_setAttribute
     try_finally this calls workspace_ hScroll vScroll corner_
     oldHostMetrics_ set_workspace_ set_hScroll set_vScroll set_corner_
     set_oldHostMetrics_ blank fst snd] in *.

Ltac decide_next :=
  match goal with
  | H : ?b = _ |- context [if ?b then _ else _] => rewrite H
  | H : ?o = _ |- context [match ?o with Some _ => _ | None => _ end] =>
      rewrite H
  | |- context [if ?b then _ else _] =>
      let E := fresh "E" in destruct b eqn:E
  | |- context [match ?o with Some _ => _ | None => _ end] =>
      let E := fresh "E" in destruct o eqn:E
  end.

Ltac run_method := unfold_methods; repeat (decide_next; unfold_methods).

Lemma ToBoolean_js_and (a b : JsValue) :
  ToBoolean (js_and a b) = ToBoolean a && ToBoolean b.
Proof. unfold js_and. destruct (ToBoolean a) eqn:E; [ reflexivity | exact E ]. Qed.

Lemma same_metrics_true (a b : Metrics) :
  same_metrics a b = true ->
  js_neq (viewWidth a) (viewWidth b) = false
  /\ js_neq (viewHeight a) (viewHeight b) = false
  /\ js_neq (absoluteTop a) (absoluteTop b) = false
  /\ js_neq (absoluteLeft a) (absoluteLeft b) = false
  /\ js_neq (scrollWidth a) (scrollWidth b) = false
  /\ js_neq (viewLeft a) (viewLeft b) = false
  /\ js_neq (scrollLeft a) (scrollLeft b) = false
  /\ js_neq (scrollHeight a) (scrollHeight b) = false
  /\ js_neq (viewTop a) (viewTop b) = false
  /\ js_neq (scrollTop a) (scrollTop b) = false.
Proof.
  unfold same_metrics, js_neq. intro H.
  repeat (apply andb_prop in H; destruct H as [H ?]).
  repeat split; apply Bool.negb_false_iff; assumption.
Qed.

(** X12.  The constructor.  Whatever the collaborators do, the pair has a
    corner only if it has both scrollbars.  When the constructor returns,
    which it does when no collaborator throws, the pair is bound to the
    workspace, has the horizontal (vertical) scrollbar exactly when
    [addHorizontal] ([addVertical]) is truthy or left out, has the corner
    exactly when it has both, tells each scrollbar whether it is one of a
    pair, and has no cached metrics. *)
Theorem new_ScrollbarPair_shape (host : Host)
    (addHorizontal addVertical opt_class opt_margin : JsValue) :
  let addH :=
    if strict_eq addHorizontal JsUndefined then JsBool true
    else addHorizontal in
  let addV :=
    if strict_eq addVertical JsUndefined then JsBool true else addVertical in
  let out :=
    new_ScrollbarPair host addHorizontal addVertical opt_class opt_margin
      (mkState blank []) in
  let p := this (snd out) in
  (corner_ p = true -> is_set (hScroll p) && is_set (vScroll p) = true)
  /\ (fst out = Returned tt ->
      workspace_ p = true
      /\ hScroll p
         = (if ToBoolean addH
            then Some (mkScrollbar true (js_and addH addV) opt_class opt_margin)
            else None)
      /\ vScroll p
         = (if ToBoolean addV
            then Some (mkScrollbar false (js_and addH addV) opt_class opt_margin)
            else None)
      /\ corner_ p = ToBoolean addH && ToBoolean addV
      /\ ToBoolean (js_and addH addV) = corner_ p
      /\ oldHostMetrics_ p = None)
  /\ ((forall c, throws host c = false) -> fst out = Returned tt).
Proof.
  intros addH addV out p. subst out p.
  unfold new_ScrollbarPair. fold addH. fold addV.
  rewrite ToBoolean_js_and.
  generalize (js_and addH addV) as isPair. intro isPair.
  split; [ | split ].
  - destruct (ToBoolean addH), (ToBoolean addV); simpl; run_method;
      simpl; intro H; (discriminate H || reflexivity).
  - destruct (ToBoolean addH), (ToBoolean addV); simpl; run_method;
      simpl; intro H; try discriminate H; repeat split.
  - intro Hquiet.
    destruct (ToBoolean addH), (ToBoolean addV); simpl; unfold_methods;
      rewrite ?Hquiet; reflexivity.
Qed.

(** X13.  [resize] on a bound pair does nothing when there is nothing to
    do.  When the host has no metrics (it is not visible), the pair and
    its cache are left as they are.  When the ten metrics it compares
    equal ([==]) the cached ones, no scrollbar is resized, events are not
    touched, no viewport event is sent and the corner is not moved; the
    new metrics object replaces the cached one. *)
Theorem resize_nothing_to_do (host : Host) (s : State) :
  workspace_ (this s) = true ->
  throws host GetMetrics = false ->
  (getMetrics host = None ->
   resize host s
   = (Returned tt, mkState (this s) (calls s ++ [GetMetrics])))
  /\ (forall old hostMetrics : Metrics,
        getMetrics host = Some hostMetrics ->
        oldHostMetrics_ (this s) = Some old ->
        same_metrics old hostMetrics = true ->
        resize host s
        = (Returned tt,
           mkState (set_oldHostMetrics_ (Some hostMetrics) (this s))
             (calls s ++ [GetMetrics]))).
Proof.
  intros Hbound Hget.
  destruct s as [[ws h v corner old] cs]. simpl in Hbound. subst ws.
  split.
  - intro Hnone. run_method. reflexivity.
  - intros old' hostMetrics Hsome Hold Hsame. simpl in Hold. subst old.
    apply same_metrics_true in Hsame.
    destruct Hsame as (H1 & H2 & H3 & H4 & H5 & H6 & H7 & H8 & H9 & H10).
    unfold_methods. rewrite Hget, Hsome.
    unfold_methods.
    rewrite H1, H2, H3, H4, H5, H6, H7, H8, H9, H10. simpl.
    destruct h, v; reflexivity.
Qed.

(** X14.  Whatever the collaborators do, and whether [resize] returns or
    throws: it only adds calls; among them [Blockly.Events.disable()] and
    [Blockly.Events.enable()] are paired, every scrollbar is resized
    between the two, and events are enabled again at the end. *)
Theorem resize_brackets_events (host : Host) (s : State) :
  exists added : list Call,
    calls (snd (resize host s)) = (calls s ++ added)%list
    /\ bracketed false added = true.
Proof.
  destruct s as [[ws h v corner old] cs].
  run_method.
  all: simpl; rewrite <- ?app_assoc; simpl.
  all: try (eexists; split; [ reflexivity | reflexivity ]).
  all: exists []; rewrite app_nil_r; split; reflexivity.
Qed.

(** X15.  Whatever the collaborators do, [resize] changes nothing of the
    pair but the cached metrics, and it caches the host metrics only when
    it returns: a resize that throws leaves the cache as it was. *)
Theorem resize_cache (host : Host) (s : State) :
  this (snd (resize host s))
  = match fst (resize host s), getMetrics host with
    | Returned _, Some hostMetrics =>
        set_oldHostMetrics_ (Some hostMetrics) (this s)
    | _, _ => this s
    end.
Proof.
  destruct s as [[ws h v corner old] cs].
  run_method; first [ reflexivity | discriminate ].
Qed.

(** X16.  The first [resize] of a pair with both scrollbars, or one after
    the view has changed size or place: with collaborators that do not
    throw, both scrollbars are resized with events disabled, then the
    viewport event is offered, then the corner is moved (in [x] only if
    the width or the left edge changed, in [y] only if the height or the
    top edge changed), and the metrics are cached. *)
Theorem resize_view_changed (host : Host) (s : State) (h v : Scrollbar)
    (hostMetrics : Metrics) :
  (forall c, throws host c = false) ->
  workspace_ (this s) = true ->
  hScroll (this s) = Some h ->
  vScroll (this s) = Some v ->
  corner_ (this s) = true ->
  getMetrics host = Some hostMetrics ->
  let moved (f g : Metrics -> JsValue) :=
    match oldHostMetrics_ (this s) with
    | None => true
    | Some old =>
        js_neq (f old) (f hostMetrics) || js_neq (g old) (g hostMetrics)
    end in
  moved viewWidth absoluteLeft || moved viewHeight absoluteTop = true ->
  resize host s
  = (Returned tt,
     mkState (set_oldHostMetrics_ (Some hostMetrics) (this s))
       (calls s
        ++ [GetMetrics; EventsDisable; ScrollbarResize h hostMetrics;
            ScrollbarResize v hostMetrics; EventsEnable;
            MaybeFireViewportChangeEvent]
        ++ (if moved viewWidth absoluteLeft
            then [CornerSetAttribute "x" v] else [])
        ++ (if moved viewHeight absoluteTop
            then [CornerSetAttribute "y" h] else []))).
Proof.
  intros Hquiet Hbound Hh Hv Hcorner Hsome moved Hmoved.
  destruct s as [[ws h' v' corner old] cs]. simpl in *. subst.
  unfold_methods. rewrite !Hquiet, Hsome. unfold_methods.
  destruct old as [old | ]; subst moved; cbv beta in *.
  - destruct (js_neq (viewWidth old) (viewWidth hostMetrics)),
      (js_neq (viewHeight old) (viewHeight hostMetrics)),
      (js_neq (absoluteTop old) (absoluteTop hostMetrics)),
      (js_neq (absoluteLeft old) (absoluteLeft hostMetrics));
      simpl in *; try discriminate Hmoved;
      unfold_methods; rewrite ?Hquiet; simpl; rewrite <- ?app_assoc;
      reflexivity.
  - simpl in *. unfold_methods. rewrite ?Hquiet. simpl.
    rewrite <- ?app_assoc. reflexivity.
Qed.

(** X17.  When only the horizontal content metrics differ from the cached
    ones (the view has the same size and place, and the vertical content
    metrics are the same), [resize] resizes the horizontal scrollbar, if
    the pair has one, and nothing else: the vertical scrollbar is not
    resized and the corner is not moved. *)
Theorem resize_horizontal_content (host : Host) (s : State)
    (old hostMetrics : Metrics) :
  (forall c, throws host c = false) ->
  workspace_ (this s) = true ->
  getMetrics host = Some hostMetrics ->
  oldHostMetrics_ (this s) = Some old ->
  js_neq (viewWidth old) (viewWidth hostMetrics) = false ->
  js_neq (viewHeight old) (viewHeight hostMetrics) = false ->
  js_neq (absoluteTop old) (absoluteTop hostMetrics) = false ->
  js_neq (absoluteLeft old) (absoluteLeft hostMetrics) = false ->
  js_neq (scrollWidth old) (scrollWidth hostMetrics)
  || js_neq (viewLeft old) (viewLeft hostMetrics)
  || js_neq (scrollLeft old) (scrollLeft hostMetrics) = true ->
  js_neq (scrollHeight old) (scrollHeight hostMetrics) = false ->
  js_neq (viewTop old) (viewTop hostMetrics) = false ->
  js_neq (scrollTop old) (scrollTop hostMetrics) = false ->
  resize host s
  = (Returned tt,
     mkState (set_oldHostMetrics_ (Some hostMetrics) (this s))
       (calls s
        ++ [GetMetrics; EventsDisable]
        ++ match hScroll (this s) with
           | Some h => [ScrollbarResize h hostMetrics]
           | None => []
           end
        ++ [EventsEnable; MaybeFireViewportChangeEvent])).
Proof.
  intros Hquiet Hbound Hsome Hold H1 H2 H3 H4 Hh H8 H9 H10.
  destruct s as [[ws h v corner old'] cs]. simpl in *. subst.
  unfold_methods. rewrite !Hquiet, Hsome. unfold_methods.
  rewrite H1, H2, H3, H4, H8, H9, H10. simpl.
  rewrite Hh. simpl.
  destruct h, v; unfold_methods; rewrite ?Hquiet; simpl;
    rewrite <- ?app_assoc; reflexivity.
Qed.

(** X18.  When resizing the horizontal scrollbar throws during the first
    resize of a pair, the error is passed on after events have been
    enabled again; the vertical scrollbar is not resized, no viewport
    event is offered, and nothing is cached, so that the next resize
    starts over. *)
Theorem resize_throws (host : Host) (s : State) (h : Scrollbar)
    (hostMetrics : Metrics) :
  workspace_ (this s) = true ->
  hScroll (this s) = Some h ->
  oldHostMetrics_ (this s) = None ->
  getMetrics host = Some hostMetrics ->
  throws host GetMetrics = false ->
  throws host EventsDisable = false ->
  throws host EventsEnable = false ->
  throws host (ScrollbarResize h hostMetrics) = true ->
  resize host s
  = (Threw (Raised (ScrollbarResize h hostMetrics)),
     mkState (this s)
       (calls s
        ++ [GetMetrics; EventsDisable; ScrollbarResize h hostMetrics;
            EventsEnable])).
Proof.
  intros Hbound Hh Hold Hsome Hget Hdis Hen Hthrow.
  destruct s as [[ws h' v corner old] cs]. simpl in *. subst.
  unfold_methods. rewrite Hget, Hsome. simpl. unfold_methods.
  rewrite Hdis. unfold_methods. rewrite Hthrow. unfold_methods.
  rewrite Hen. simpl. rewrite <- ?app_assoc. reflexivity.
Qed.

(** X19.  [set] moves both handles and reports to the workspace once.
    With collaborators that do not throw, each scrollbar the pair has is
    set without an update of the metrics; then, when [updateMetrics] is
    truthy or left out, the ratio of each scrollbar is read and
    [setMetrics] is called once with the ratios of the scrollbars that
    exist; when [updateMetrics] is falsy and given ([false], [null], [0])
    nothing more is done. *)
Theorem set_updates_metrics_once (host : Host) (s : State)
    (x y updateMetrics : JsValue) :
  (forall c, throws host c = false) ->
  workspace_ (this s) = true ->
  set host x y updateMetrics s
  = (Returned tt,
     mkState (this s)
       (calls s
        ++ opt_call (hScroll (this s)) (fun h => ScrollbarSet h x false)
        ++ opt_call (vScroll (this s)) (fun v => ScrollbarSet v y false)
        ++ (if ToBoolean updateMetrics || is_undefined updateMetrics then
              opt_call (hScroll (this s)) GetRatio
              ++ opt_call (vScroll (this s)) GetRatio
              ++ [SetMetrics (option_map (getRatio_ host) (hScroll (this s)))
                    (option_map (getRatio_ host) (vScroll (this s)))]
            else []))).
Proof.
  intros Hquiet Hbound.
  destruct s as [[ws h v corner old] cs]. simpl in *. subst.
  rewrite <- strict_eq_undefined.
  destruct h, v; unfold_methods; rewrite ?Hquiet;
    destruct (ToBoolean updateMetrics || strict_eq updateMetrics JsUndefined);
    unfold_methods; rewrite ?Hquiet; simpl; rewrite <- ?app_assoc;
    rewrite ?app_nil_r; reflexivity.
Qed.

(** X20.  Whatever the collaborators do, none of the calls that [set]
    makes asks a scrollbar to update the metrics itself, and [setMetrics]
    is called at most once. *)
Theorem set_never_updates_twice (host : Host) (s : State)
    (x y updateMetrics : JsValue) :
  exists added : list Call,
    calls (snd (set host x y updateMetrics s)) = (calls s ++ added)%list
    /\ existsb is_set_call_updating added = false
    /\ length (filter is_setMetrics added) <= 1.
Proof.
  destruct s as [[ws h v corner old] cs].
  run_method.
  all: simpl; rewrite <- ?app_assoc; simpl.
  all: try (eexists; split; [ reflexivity | split; simpl; [ reflexivity | lia ] ]).
  all: exists []; rewrite app_nil_r; split; [ reflexivity | split; simpl; [ reflexivity | lia ] ].
Qed.

(** X21.  [isVisible] with collaborators that do not throw: a pair without
    scrollbars is not visible and nobody is asked; otherwise the answer of
    the horizontal scrollbar is returned when it is truthy, and then the
    vertical scrollbar is not asked; else the answer of the vertical
    scrollbar is returned. *)
Theorem isVisible_short_circuit (host : Host) (s : State) :
  (forall c, throws host c = false) ->
  isVisible host s
  = match hScroll (this s), vScroll (this s) with
    | None, None => (Returned (JsBool false), s)
    | Some h, None =>
        (Returned (scrollbar_isVisible host h),
         mkState (this s) (calls s ++ [ScrollbarIsVisible h]))
    | None, Some v =>
        (Returned (scrollbar_isVisible host v),
         mkState (this s) (calls s ++ [ScrollbarIsVisible v]))
    | Some h, Some v =>
        if ToBoolean (scrollbar_isVisible host h) then
          (Returned (scrollbar_isVisible host h),
           mkState (this s) (calls s ++ [ScrollbarIsVisible h]))
        else
          (Returned (scrollbar_isVisible host v),
           mkState (this s)
             (calls s ++ [ScrollbarIsVisible h; ScrollbarIsVisible v]))
    end.
Proof.
  intro Hquiet.
  destruct s as [[ws h v corner old] cs]. simpl.
  destruct h as [h | ], v as [v | ]; unfold_methods; rewrite ?Hquiet;
    try reflexivity.
  destruct (ToBoolean (scrollbar_isVisible host h)); unfold_methods;
    rewrite ?Hquiet; simpl; rewrite <- ?app_assoc; reflexivity.
Qed.

(** X22.  [dispose] with collaborators that do not throw removes the
    corner node, releases the workspace, the cache and both scrollbars,
    each after disposing of it.  On the disposed pair neither direction
    can scroll, [isVisible] answers false and the setters, [setOrigin],
    [setContainerVisible], [resizeContent] and [resizeView] do nothing,
    without a call to a collaborator; [resize] throws a [TypeError]. *)
Theorem dispose_releases (host : Host) (s : State) :
  (forall c, throws host c = false) ->
  let disposed := mkPair false None None false None in
  let s' :=
    mkState disposed
      (calls s ++ [RemoveNode (corner_ (this s))]
       ++ opt_call (hScroll (this s)) ScrollbarDispose
       ++ opt_call (vScroll (this s)) ScrollbarDispose) in
  dispose host s = (Returned tt, s')
  /\ canScrollHorizontally disposed = false
  /\ canScrollVertically disposed = false
  /\ (forall host' : Host,
        isVisible host' s' = (Returned (JsBool false), s')
        /\ resize host' s' = (Threw (Language TypeError), s')
        /\ (forall x, setX host' x s' = (Returned tt, s'))
        /\ (forall y, setY host' y s' = (Returned tt, s'))
        /\ (forall x y, setOrigin host' x y s' = (Returned tt, s'))
        /\ (forall visible,
              setContainerVisible host' visible s' = (Returned tt, s'))
        /\ (forall m, resizeContent host' m s' = (Returned tt, s'))
        /\ (forall m, resizeView host' m s' = (Returned tt, s'))).
Proof.
  intros Hquiet disposed s'. subst disposed s'.
  destruct s as [[ws h v corner old] cs]. simpl.
  split; [ | repeat split ].
  destruct h, v; unfold_methods; rewrite ?Hquiet; unfold_methods;
    rewrite ?Hquiet; simpl; rewrite <- ?app_assoc; reflexivity.
Qed.

(** *** The properties on a pair of scrollbars *)

(** X12, witness: with both flags left out the pair has two scrollbars and
    a corner; with [addHorizontal] false it has a vertical scrollbar that
    is not one of a pair, and no corner. *)
Lemma new_ScrollbarPair_shape_witness :
  new_ScrollbarPair (quiet None) JsUndefined JsUndefined JsUndefined
    JsUndefined (mkState blank [])
  = (Returned tt,
     mkState full_pair
       [NewScrollbar h_bar; NewScrollbar v_bar; CreateSvgElement;
        GetBubbleCanvas; InsertAfter])
  /\ (let out :=
        new_ScrollbarPair (quiet None) (JsBool false) JsUndefined JsUndefined
          JsUndefined (mkState blank []) in
      fst out = Returned tt
      /\ hScroll (this (snd out)) = None
      /\ vScroll (this (snd out))
         = Some (mkScrollbar false (JsBool false) JsUndefined JsUndefined)
      /\ corner_ (this (snd out)) = false).
Proof.
  split; [ reflexivity | ].
  destruct (new_ScrollbarPair_shape (quiet None) (JsBool false) JsUndefined
              JsUndefined JsUndefined) as (_ & Hshape & Hreturns).
  cbv zeta.
  destruct (Hshape (Hreturns (fun _ => eq_refl)))
    as (_ & Hh & Hv & Hcorner & _ & _).
  split; [ exact (Hreturns (fun _ => eq_refl)) | ].
  split; [ exact Hh | ]. split; [ exact Hv | exact Hcorner ].
Defined.

(** X13, witness: a resize while the host is hidden, and one with the
    metrics that are cached. *)
Lemma resize_nothing_to_do_witness :
  resize (quiet None) (mkState full_pair [])
  = (Returned tt, mkState full_pair [GetMetrics])
  /\ resize (quiet (Some metrics_800_600))
       (mkState (set_oldHostMetrics_ (Some metrics_800_600) full_pair) [])
     = (Returned tt,
        mkState (set_oldHostMetrics_ (Some metrics_800_600) full_pair)
          [GetMetrics]).
Proof.
  split.
  - apply (proj1 (resize_nothing_to_do (quiet None) (mkState full_pair [])
                    eq_refl eq_refl)).
    reflexivity.
  - apply (proj2 (resize_nothing_to_do (quiet (Some metrics_800_600))
                    (mkState
                       (set_oldHostMetrics_ (Some metrics_800_600) full_pair)
                       [])
                    eq_refl eq_refl) metrics_800_600 metrics_800_600);
      reflexivity.
Defined.

(** X16, witness: the first resize of a full pair. *)
Lemma resize_view_changed_witness :
  resize (quiet (Some metrics_800_600)) (mkState full_pair [])
  = (Returned tt,
     mkState (set_oldHostMetrics_ (Some metrics_800_600) full_pair)
       [GetMetrics; EventsDisable; ScrollbarResize h_bar metrics_800_600;
        ScrollbarResize v_bar metrics_800_600; EventsEnable;
        MaybeFireViewportChangeEvent; CornerSetAttribute "x" v_bar;
        CornerSetAttribute "y" h_bar]).
Proof.
  apply (resize_view_changed (quiet (Some metrics_800_600))
           (mkState full_pair []) h_bar v_bar metrics_800_600);
    reflexivity.
Defined.

(** X17, witness: the content has been scrolled to the left. *)
Lemma resize_horizontal_content_witness :
  resize (quiet (Some metrics_scrolled_left))
    (mkState (set_oldHostMetrics_ (Some metrics_800_600) full_pair) [])
  = (Returned tt,
     mkState (set_oldHostMetrics_ (Some metrics_scrolled_left) full_pair)
       [GetMetrics; EventsDisable;
        ScrollbarResize h_bar metrics_scrolled_left; EventsEnable;
        MaybeFireViewportChangeEvent]).
Proof.
  apply (resize_horizontal_content (quiet (Some metrics_scrolled_left))
           (mkState (set_oldHostMetrics_ (Some metrics_800_600) full_pair) [])
           metrics_800_600 metrics_scrolled_left);
    reflexivity.
Defined.

(** X18, witness: the horizontal scrollbar throws when resized. *)
Lemma resize_throws_witness :
  resize (faulty (Some metrics_800_600)) (mkState full_pair [])
  = (Threw (Raised (ScrollbarResize h_bar metrics_800_600)),
     mkState full_pair
       [GetMetrics; EventsDisable; ScrollbarResize h_bar metrics_800_600;
        EventsEnable]).
Proof.
  apply (resize_throws (faulty (Some metrics_800_600))
           (mkState full_pair []) h_bar metrics_800_600);
    reflexivity.
Defined.

(** X19, witness: [set] with [updateMetrics] left out, and with
    [updateMetrics] false. *)
Lemma set_updates_metrics_once_witness :
  set (quiet None) (JsNumber 10) (JsNumber 20) JsUndefined
    (mkState full_pair [])
  = (Returned tt,
     mkState full_pair
       [ScrollbarSet h_bar (JsNumber 10) false;
        ScrollbarSet v_bar (JsNumber 20) false;
        GetRatio h_bar; GetRatio v_bar;
        SetMetrics (Some (JsNumber 0)) (Some (JsNumber 0))])
  /\ set (quiet None) (JsNumber 10) (JsNumber 20) (JsBool false)
       (mkState full_pair [])
     = (Returned tt,
        mkState full_pair
          [ScrollbarSet h_bar (JsNumber 10) false;
           ScrollbarSet v_bar (JsNumber 20) false]).
Proof.
  split.
  - apply (set_updates_metrics_once (quiet None) (mkState full_pair [])
             (JsNumber 10) (JsNumber 20) JsUndefined); reflexivity.
  - apply (set_updates_metrics_once (quiet None) (mkState full_pair [])
             (JsNumber 10) (JsNumber 20) (JsBool false)); reflexivity.
Defined.

(** X21, witness: the horizontal scrollbar is visible, the vertical one is
    not asked. *)
Lemma isVisible_short_circuit_witness :
  isVisible (quiet None) (mkState full_pair [])
  = (Returned (JsBool true), mkState full_pair [ScrollbarIsVisible h_bar]).
Proof.
  apply (isVisible_short_circuit (quiet None) (mkState full_pair [])).
  reflexivity.
Defined.

(** X22, witness: disposing of a full pair. *)
Lemma dispose_releases_witness :
  dispose (quiet None) (mkState full_pair [])
  = (Returned tt,
     mkState (mkPair false None None false None)
       [RemoveNode true; ScrollbarDispose h_bar; ScrollbarDispose v_bar]).
Proof.
  apply (proj1 (dispose_releases (quiet None) (mkState full_pair [])
                  (fun _ => eq_refl))).
Defined.

End ScrollbarPairFacts.
